(** * LUNA16 / LIDC-IDRI mask reconstruction: a shallow embedding

    Embedded sources:
    - [src/utils/data_loader.py]: [LUNA16DataLoader.world_to_voxel],
      [LUNA16DataLoader.voxel_to_world];
    - [src/utils/lidc_loader.py]: [LIDCAnnotationLoader.get_annotation_mask],
      [get_consensus_mask], [get_aligned_mask], [get_aligned_consensus_mask],
      [get_aligned_mask_for_cluster].

    Conventions.  Python floats (millimetre positions, origins, spacings,
    thresholds, vote values) are idealised as exact rationals [Q]; every
    concrete input used below is a dyadic value on which binary floating
    point computes exactly.  Python [int]s are [Z].  A NumPy 3-D array is a
    shape together with a cell function that is only meaningful inside the
    shape.  A Python call either returns or raises; [except Exception]
    handlers turn a raised exception into the returned value [None].
    Frames have a non-zero spacing (section 3 of the specification): a
    division by a zero spacing, which NumPy turns into inf or nan and
    [round] into an exception, is outside the model. *)

From Stdlib Require Import String ZArith QArith Qround Qabs List Bool Lia Lqa.
From Stdlib Require Import Permutation.
Import ListNotations.

Local Open Scope Z_scope.

(** ** Three-axis values (axis order z, y, x) *)

Record vec3 (A : Type) : Type := mk3 { ax0 : A; ax1 : A; ax2 : A }.
Arguments mk3 {A} _ _ _.
Arguments ax0 {A} _.
Arguments ax1 {A} _.
Arguments ax2 {A} _.

Definition map3 {A B} (f : A -> B) (v : vec3 A) : vec3 B :=
  mk3 (f (ax0 v)) (f (ax1 v)) (f (ax2 v)).

Definition zip3 {A B C} (f : A -> B -> C) (u : vec3 A) (v : vec3 B) : vec3 C :=
  mk3 (f (ax0 u) (ax0 v)) (f (ax1 u) (ax1 v)) (f (ax2 u) (ax2 v)).

(** An axis, and the component of a three-axis value on it. *)
Inductive axis : Type := Zax | Yax | Xax.

Definition get {A} (a : axis) (v : vec3 A) : A :=
  match a with
  | Zax => ax0 v
  | Yax => ax1 v
  | Xax => ax2 v
  end.

(** ** Coordinate conversion *)

Module CoordinateMapper.

(** [np.rint] and Python 3's built-in [round] on a float: nearest integer,
    a tie going to the even neighbour. *)
Definition rint (x : Q) : Z :=
  let f := Qfloor x in
  match Qcompare (x - inject_Z f) (1 # 2) with
  | Lt => f
  | Gt => f + 1
  | Eq => if Z.even f then f else f + 1
  end.

(** data_loader.py, [world_to_voxel]:
    [np.rint((world_coords - origin) / spacing).astype(int)], element-wise. *)
Definition world_to_voxel (world_coords origin spacing : vec3 Q) : vec3 Z :=
  map3 rint (zip3 Qdiv (zip3 Qminus world_coords origin) spacing).

(** data_loader.py, [voxel_to_world]: [spacing * voxel_coords + origin]. *)
Definition voxel_to_world (voxel_coords : vec3 Z) (origin spacing : vec3 Q) : vec3 Q :=
  zip3 Qplus (zip3 Qmult spacing (map3 inject_Z voxel_coords)) origin.

(** lidc_loader.py, lines 494, 593, 625, 683 and 715:
    [int(round((z_mm - origin[0]) / spacing[0]))]. *)
Definition z_index (z_mm : Q) (origin spacing : vec3 Q) : Z :=
  rint ((z_mm - ax0 origin) / ax0 spacing).



End CoordinateMapper.

Import CoordinateMapper.

(** ** Python control flow: returned values and raised exceptions *)

Inductive exn : Type := IndexError | ValueError.

Inductive outcome (A : Type) : Type :=
| Returned (a : A)
| Raised (e : exn).
Arguments Returned {A} _.
Arguments Raised {A} _.

Definition bind {A B} (m : outcome A) (k : A -> outcome B) : outcome B :=
  match m with
  | Returned a => k a
  | Raised e => Raised e
  end.

Notation "x <- m ;; k" := (bind m (fun x => k))
  (at level 61, m at next level, right associativity).

(** A loop whose body may raise. *)
Fixpoint foldM {A S} (f : S -> A -> outcome S) (l : list A) (s : S) : outcome S :=
  match l with
  | [] => Returned s
  | a :: l' => s' <- f s a ;; foldM f l' s'
  end.

(** [try: <body> except Exception: return None]. *)
Definition try_except_None {A} (body : outcome (option A)) : option A :=
  match body with
  | Returned v => v
  | Raised _ => None
  end.

Definition len {A} (l : list A) : Z := Z.of_nat (length l).

(** [not l] for a Python list. *)
Definition is_empty {A} (l : list A) : bool :=
  match l with [] => true | _ :: _ => false end.

(** [l[i]]: a negative index counts from the end; out of range raises. *)
Definition py_getitem {A} (l : list A) (i : Z) : outcome A :=
  let j := if i <? 0 then i + len l else i in
  if (0 <=? j) && (j <? len l) then
    match nth_error l (Z.to_nat j) with
    | Some a => Returned a
    | None => Raised IndexError
    end
  else Raised IndexError.

(** [min(l)] and [max(l)]: [ValueError] on an empty sequence. *)
Definition py_min (l : list Z) : outcome Z :=
  match l with
  | [] => Raised ValueError
  | a :: l' => Returned (fold_left Z.min l' a)
  end.

Definition py_max (l : list Z) : outcome Z :=
  match l with
  | [] => Raised ValueError
  | a :: l' => Returned (fold_left Z.max l' a)
  end.

(** ** NumPy arrays and slices *)

Record ndarray (A : Type) : Type := mk_array {
  shape : vec3 Z;
  cell : Z -> Z -> Z -> A
}.
Arguments mk_array {A} _ _.
Arguments shape {A} _.
Arguments cell {A} _ _ _ _.

(** NumPy's invariant on a shape: no dimension is negative. *)
Definition well_formed {A} (m : ndarray A) : Prop :=
  0 <= ax0 (shape m) /\ 0 <= ax1 (shape m) /\ 0 <= ax2 (shape m).

(** [np.zeros(shape)]: negative dimensions are not allowed. *)
Definition np_zeros {A} (zero : A) (sh : vec3 Z) : outcome (ndarray A) :=
  if (0 <=? ax0 sh) && (0 <=? ax1 sh) && (0 <=? ax2 sh)
  then Returned (mk_array sh (fun _ _ _ => zero))
  else Raised ValueError.

Record slice : Type := mk_slice { start : Z; stop : Z }.

Definition extents (bbox : vec3 slice) : vec3 Z :=
  map3 (fun s => stop s - start s) bbox.

(** [np.min(rows, axis=0)] and [np.max(rows, axis=0)] on a list of triples. *)
Definition np_min_axis0 (rows : list (vec3 Z)) : outcome (vec3 Z) :=
  a <- py_min (map ax0 rows) ;; b <- py_min (map ax1 rows) ;;
  c <- py_min (map ax2 rows) ;; Returned (mk3 a b c).

Definition np_max_axis0 (rows : list (vec3 Z)) : outcome (vec3 Z) :=
  a <- py_max (map ax0 rows) ;; b <- py_max (map ax1 rows) ;;
  c <- py_max (map ax2 rows) ;; Returned (mk3 a b c).

(** [slice(a, b).indices(n)] for step 1, as (first index, length): a negative
    bound counts from the end and both bounds are clipped to the axis. *)
Definition slice_indices (n a b : Z) : Z * Z :=
  let clip i := if i <? 0 then Z.max (i + n) 0 else Z.min i n in
  (clip a, Z.max 0 (clip b - clip a)).

Definition in_slice (r : Z * Z) (i : Z) : bool :=
  (fst r <=? i) && (i <? fst r + snd r).

(** The right-hand side of an in-place operation broadcasts to the target
    when each of its dimensions equals the target's or is 1. *)
Definition broadcastable (dst src : Z) : bool := (src =? dst) || (src =? 1).

Definition src_index (r : Z * Z) (src_dim i : Z) : Z :=
  if src_dim =? 1 then 0 else i - fst r.

Definition b2q (b : bool) : Q := if b then 1%Q else 0%Q.

(** The part of an axis of length [n] that [off : off + size] selects. *)
Definition region (n off size : Z) : Z * Z := slice_indices n off (off + size).

(** [v[o0:o0+s0, o1:o1+s1, o2:o2+s2] += mask.astype(np.float32)] where
    [s] is [mask.shape]: a shape mismatch that does not broadcast raises. *)
Definition add_at (v : ndarray Q) (offsets : vec3 Z) (mask : ndarray bool)
  : outcome (ndarray Q) :=
  let r := zip3 (fun n os => region n (fst os) (snd os)) (shape v)
                (zip3 pair offsets (shape mask)) in
  if broadcastable (snd (ax0 r)) (ax0 (shape mask)) &&
     broadcastable (snd (ax1 r)) (ax1 (shape mask)) &&
     broadcastable (snd (ax2 r)) (ax2 (shape mask))
  then Returned (mk_array (shape v) (fun i j k =>
         if in_slice (ax0 r) i && in_slice (ax1 r) j && in_slice (ax2 r) k
         then (cell v i j k +
               b2q (cell mask (src_index (ax0 r) (ax0 (shape mask)) i)
                              (src_index (ax1 r) (ax1 (shape mask)) j)
                              (src_index (ax2 r) (ax2 (shape mask)) k)))%Q
         else cell v i j k))
  else Raised ValueError.

(** [vote_volume += ann_mask.astype(np.float32)] on arrays of one shape. *)
Definition np_add_mask (v : ndarray Q) (m : ndarray bool) : ndarray Q :=
  mk_array (shape v) (fun i j k => (cell v i j k + b2q (cell m i j k))%Q).

(** [vote_volume /= n]. *)
Definition np_divide (v : ndarray Q) (n : Z) : ndarray Q :=
  mk_array (shape v) (fun i j k => (cell v i j k / inject_Z n)%Q).

(** [vote_volume >= threshold]. *)
Definition np_ge (v : ndarray Q) (threshold : Q) : ndarray bool :=
  mk_array (shape v) (fun i j k => Qle_bool threshold (cell v i j k)).

(** An array index: in range, or negative and counted from the end. *)
Definition norm_index (n i : Z) : option Z :=
  if (0 <=? i) && (i <? n) then Some i
  else if (- n <=? i) && (i <? 0) then Some (i + n)
  else None.

Definition norm_pixel (sh : vec3 Z) (p : Z * Z) : option (Z * Z) :=
  match norm_index (ax1 sh) (fst p), norm_index (ax2 sh) (snd p) with
  | Some r, Some c => Some (r, c)
  | _, _ => None
  end.

Fixpoint norm_pixels (sh : vec3 Z) (ps : list (Z * Z)) : option (list (Z * Z)) :=
  match ps with
  | [] => Some []
  | p :: ps' =>
      match norm_pixel sh p, norm_pixels sh ps' with
      | Some q, Some qs => Some (q :: qs)
      | _, _ => None
      end
  end.

Definition has_pixel (ps : list (Z * Z)) (j k : Z) : bool :=
  existsb (fun p => (fst p =? j) && (snd p =? k)) ps.

(** [mask[z_local, rr, cc] = True], the pixels being the pairs
    [(rr[n], cc[n])]; an index outside the array raises [IndexError]. *)
Definition set_true_at (m : ndarray bool) (z_local : Z) (pixels : list (Z * Z))
  : outcome (ndarray bool) :=
  match norm_pixels (shape m) pixels with
  | Some ps =>
      Returned (mk_array (shape m) (fun i j k =>
        ((i =? z_local) && has_pixel ps j k) || cell m i j k))
  | None => Raised IndexError
  end.

(** ** The annotation store (pylidc), as the loader reads it *)

(** A contour: its slice position in millimetres and the rows [(i, j)] of
    [to_matrix()] (the third column is never read). *)
Record contour : Type := mk_contour {
  image_z_position : Q;
  to_matrix : list (Z * Z)
}.

(** An annotation: its contours, and the native-frame mask and bounding box
    that pylidc computes ([boolean_mask()], [bbox()]). *)
Record annotation : Type := mk_annotation {
  contours : list contour;
  boolean_mask : ndarray bool;
  bbox : vec3 slice
}.

Record scan : Type := mk_scan {
  series_instance_uid : string;
  annotations : list annotation;
  cluster_annotations : list (list annotation)
}.

(** The result every mask operation returns: [(mask, bbox)] or [None]. *)
Definition mask_result : Type := option (ndarray bool * vec3 slice).

Module LIDCAnnotationLoader.

Section Loader.

(** [skimage.draw.polygon(r, c, shape)], an external library function: the
    filled pixels, as the pairs [(rr[n], cc[n])]. *)
Variable polygon : list Z -> list Z -> Z * Z -> list (Z * Z).

(** The scans of the pylidc database, in query order. *)
Variable db : list scan.

(** [get_scan_by_seriesuid]: the first scan with that series UID, or [None]
    (the cache only memoises this result). *)
Definition get_scan_by_seriesuid (seriesuid : string) : option scan :=
  find (fun sc => String.eqb (series_instance_uid sc) seriesuid) db.

(** [get_annotation_mask], lines 320-340. *)
Definition get_annotation_mask (seriesuid : string) (annotation_idx : Z)
  : outcome mask_result :=
  match get_scan_by_seriesuid seriesuid with
  | None => Returned None
  | Some sc =>
      if annotation_idx >=? len (annotations sc) then Returned None
      else
        ann <- py_getitem (annotations sc) annotation_idx ;;
        Returned (Some (boolean_mask ann, bbox ann))
  end.

(** Lines 386-396: the fused box of a list of (mask, bbox) pairs. *)
Definition min_starts (mbs : list (ndarray bool * vec3 slice)) : outcome (vec3 Z) :=
  np_min_axis0 (map (fun mb => map3 start (snd mb)) mbs).

Definition max_ends (mbs : list (ndarray bool * vec3 slice)) : outcome (vec3 Z) :=
  np_max_axis0 (map (fun mb => map3 stop (snd mb)) mbs).

(** Line 404: [offsets = [bbox[i].start - min_starts[i] for i in range(3)]]. *)
Definition offsets (bb : vec3 slice) (mins : vec3 Z) : vec3 Z :=
  zip3 Z.sub (map3 start bb) mins.

(** Lines 398-409: the vote volume before normalisation. *)
Definition accumulate_votes (mbs : list (ndarray bool * vec3 slice))
  (mins combined_shape : vec3 Z) : outcome (ndarray Q) :=
  v0 <- np_zeros 0%Q combined_shape ;;
  foldM (fun v mb => add_at v (offsets (snd mb) mins) (fst mb)) mbs v0.

(** The body of the [try] block of [get_consensus_mask], lines 376-420. *)
Definition consensus_body (cluster : list annotation) (threshold : Q)
  : outcome mask_result :=
  let masks_and_bboxes := map (fun ann => (boolean_mask ann, bbox ann)) cluster in
  if is_empty masks_and_bboxes then Returned None
  else
    mins <- min_starts masks_and_bboxes ;;
    maxs <- max_ends masks_and_bboxes ;;
    let combined_shape := zip3 Z.sub maxs mins in
    vote_volume <- accumulate_votes masks_and_bboxes mins combined_shape ;;
    let vote_volume := np_divide vote_volume (len masks_and_bboxes) in
    let consensus_mask := np_ge vote_volume threshold in
    Returned (Some (consensus_mask, zip3 mk_slice mins maxs)).

(** [get_consensus_mask], lines 360-425. *)
Definition get_consensus_mask (seriesuid : string) (nodule_idx : Z) (threshold : Q)
  : outcome mask_result :=
  match get_scan_by_seriesuid seriesuid with
  | None => Returned None
  | Some sc =>
      let nodule_clusters := cluster_annotations sc in
      if nodule_idx >=? len nodule_clusters then Returned None
      else
        cluster <- py_getitem nodule_clusters nodule_idx ;;
        Returned (try_except_None (consensus_body cluster threshold))
  end.

(** Lines 492-500: each contour with its slice index, those inside the
    volume's slice range kept. *)
Definition valid_contours (cs : list contour) (origin spacing : vec3 Q)
  (ct_shape : vec3 Z) : list (contour * Z) :=
  filter (fun cz => (0 <=? snd cz) && (snd cz <? ax0 ct_shape))
         (map (fun c => (c, z_index (image_z_position c) origin spacing)) cs).

(** Lines 518-525 (and 608-613, 698-703): the in-plane box of the collected
    coordinates, clipped to the volume. *)
Definition plane_bounds (all_y all_x : list Z) (ct_shape : vec3 Z)
  : outcome (Z * Z * (Z * Z)) :=
  y_lo <- py_min all_y ;; y_hi <- py_max all_y ;;
  x_lo <- py_min all_x ;; x_hi <- py_max all_x ;;
  Returned (Z.max 0 y_lo, Z.min (ax1 ct_shape) (y_hi + 1),
            (Z.max 0 x_lo, Z.min (ax2 ct_shape) (x_hi + 1))).

(** Lines 535-541 (and 628-633, 718-723): fill one contour into slice
    [z_idx - z_min] of [mask], whose in-plane shape is the polygon's. *)
Definition rasterize (mask : ndarray bool) (z_min y_min x_min : Z)
  (c : contour) (z_idx : Z) : outcome (ndarray bool) :=
  let pixels := polygon (map (fun p => fst p - y_min) (to_matrix c))
                        (map (fun p => snd p - x_min) (to_matrix c))
                        (ax1 (shape mask), ax2 (shape mask)) in
  let z_local := z_idx - z_min in
  if (0 <=? z_local) && (z_local <? ax0 (shape mask))
  then set_true_at mask z_local pixels
  else Returned mask.

(** The body of the [try] block of [get_aligned_mask], lines 487-546. *)
Definition aligned_mask_body (ann : annotation) (origin spacing : vec3 Q)
  (ct_shape : vec3 Z) : outcome mask_result :=
  if is_empty (contours ann) then Returned None
  else
    let valid := valid_contours (contours ann) origin spacing ct_shape in
    if is_empty valid then Returned None
    else
      z_min <- py_min (map snd valid) ;;
      z_max <- py_max (map snd valid) ;;
      let all_y := flat_map (fun cz => map fst (to_matrix (fst cz))) valid in
      let all_x := flat_map (fun cz => map snd (to_matrix (fst cz))) valid in
      yx <- plane_bounds all_y all_x ct_shape ;;
      let '(y_min, y_max, (x_min, x_max)) := yx in
      let mask_shape := mk3 (z_max - z_min + 1) (y_max - y_min) (x_max - x_min) in
      mask <- np_zeros false mask_shape ;;
      mask <- foldM (fun m cz => rasterize m z_min y_min x_min (fst cz) (snd cz))
                    valid mask ;;
      Returned (Some (mask, mk3 (mk_slice z_min (z_max + 1))
                                (mk_slice y_min y_max) (mk_slice x_min x_max))).

(** [get_aligned_mask], lines 477-551. *)
Definition get_aligned_mask (seriesuid : string) (annotation_idx : Z)
  (origin spacing : vec3 Q) (ct_shape : vec3 Z) : outcome mask_result :=
  match get_scan_by_seriesuid seriesuid with
  | None => Returned None
  | Some sc =>
      if annotation_idx >=? len (annotations sc) then Returned None
      else
        ann <- py_getitem (annotations sc) annotation_idx ;;
        Returned (try_except_None (aligned_mask_body ann origin spacing ct_shape))
  end.

(** Lines 587-597 (and 677-687): the in-range contours of every annotation
    of the cluster, as [(z_idx, (coords[:, 0], coords[:, 1]))]. *)
Definition all_contour_data (cluster : list annotation) (origin spacing : vec3 Q)
  (ct_shape : vec3 Z) : list (Z * (list Z * list Z)) :=
  flat_map (fun ann =>
    flat_map (fun c =>
      let z_idx := z_index (image_z_position c) origin spacing in
      if (0 <=? z_idx) && (z_idx <? ax0 ct_shape)
      then [(z_idx, (map fst (to_matrix c), map snd (to_matrix c)))]
      else [])
      (contours ann))
    cluster.

(** Lines 621-633 (and 711-723): one annotation's mask in the vote frame. *)
Definition ann_mask (ann : annotation) (origin spacing : vec3 Q)
  (mask_shape : vec3 Z) (z_min z_max y_min x_min : Z) : outcome (ndarray bool) :=
  m0 <- np_zeros false mask_shape ;;
  foldM (fun m c =>
           let z_idx := z_index (image_z_position c) origin spacing in
           if (z_min <=? z_idx) && (z_idx <=? z_max)
           then rasterize m z_min y_min x_min c z_idx
           else Returned m)
        (contours ann) m0.

(** Lines 587-635 (and 677-725): the vote volume and the bounding box as
    they stand when the normalisation of line 638 (728) is reached;
    [Returned None] is the early [return None] of line 600 (690). *)
Definition aligned_votes (cluster : list annotation) (origin spacing : vec3 Q)
  (ct_shape : vec3 Z) : outcome (option (ndarray Q * vec3 slice)) :=
  let data := all_contour_data cluster origin spacing ct_shape in
  if is_empty data then Returned None
  else
    z_min <- py_min (map fst data) ;;
    z_max <- py_max (map fst data) ;;
    let all_y := flat_map (fun d => fst (snd d)) data in
    let all_x := flat_map (fun d => snd (snd d)) data in
    yx <- plane_bounds all_y all_x ct_shape ;;
    let '(y_min, y_max, (x_min, x_max)) := yx in
    let mask_shape := mk3 (z_max - z_min + 1) (y_max - y_min) (x_max - x_min) in
    vote_volume <- np_zeros 0%Q mask_shape ;;
    vote_volume <-
      foldM (fun v ann =>
               m <- ann_mask ann origin spacing mask_shape z_min z_max y_min x_min ;;
               Returned (np_add_mask v m))
            cluster vote_volume ;;
    Returned (Some (vote_volume,
                    mk3 (mk_slice z_min (z_max + 1))
                        (mk_slice y_min y_max) (mk_slice x_min x_max))).

(** The body of the [try] block shared, line for line, by
    [get_aligned_consensus_mask] (584-645) and
    [get_aligned_mask_for_cluster] (674-735). *)
Definition aligned_consensus_body (cluster : list annotation)
  (origin spacing : vec3 Q) (ct_shape : vec3 Z) (threshold : Q)
  : outcome mask_result :=
  r <- aligned_votes cluster origin spacing ct_shape ;;
  match r with
  | None => Returned None
  | Some (vote_volume, bbox) =>
      let vote_volume := np_divide vote_volume (len cluster) in
      let consensus_mask := np_ge vote_volume threshold in
      Returned (Some (consensus_mask, bbox))
  end.

(** [get_aligned_consensus_mask], lines 574-650. *)
Definition get_aligned_consensus_mask (seriesuid : string) (nodule_idx : Z)
  (origin spacing : vec3 Q) (ct_shape : vec3 Z) (threshold : Q)
  : outcome mask_result :=
  match get_scan_by_seriesuid seriesuid with
  | None => Returned None
  | Some sc =>
      let nodule_clusters := cluster_annotations sc in
      if nodule_idx >=? len nodule_clusters then Returned None
      else
        cluster <- py_getitem nodule_clusters nodule_idx ;;
        Returned (try_except_None
                    (aligned_consensus_body cluster origin spacing ct_shape threshold))
  end.

(** [get_aligned_mask_for_cluster], lines 671-740. *)
Definition get_aligned_mask_for_cluster (cluster : list annotation)
  (origin spacing : vec3 Q) (ct_shape : vec3 Z) (threshold : Q) : mask_result :=
  if is_empty cluster then None
  else try_except_None
         (aligned_consensus_body cluster origin spacing ct_shape threshold).

(** The value [len(cluster)] by which line 638 (728) divides, when the call
    gets that far. *)
Definition normalization_divisor (cluster : list annotation)
  (origin spacing : vec3 Q) (ct_shape : vec3 Z) : option Z :=
  match aligned_votes cluster origin spacing ct_shape with
  | Returned (Some _) => Some (len cluster)
  | _ => None
  end.

End Loader.

End LIDCAnnotationLoader.

Import LIDCAnnotationLoader.

(** ** A concrete rasteriser, for evaluating the loader on inputs *)

Module Rasterizer.

(** Modelled from the spec: [skimage.draw.polygon] is an external library
    whose code is not part of the repository; section 4.2 describes it as an
    even-odd polygon fill restricted to the target shape, the polygon being
    closed from its last point to its first. *)
Definition edges (pts : list (Z * Z)) : list ((Z * Z) * (Z * Z)) :=
  match pts with
  | [] => []
  | p :: rest => combine pts (rest ++ [p])
  end.

(** The edge crosses the half-line that leaves [(r, c)] towards larger [c]. *)
Definition crosses (r c : Z) (e : (Z * Z) * (Z * Z)) : bool :=
  let '((r0, c0), (r1, c1)) := e in
  negb (Bool.eqb (r <? r0) (r <? r1)) &&
  (if r0 <? r1
   then (c - c0) * (r1 - r0) <? (c1 - c0) * (r - r0)
   else (c1 - c0) * (r - r0) <? (c - c0) * (r1 - r0)).

Definition inside (pts : list (Z * Z)) (r c : Z) : bool :=
  Nat.odd (List.length (filter (crosses r c) (edges pts))).

Definition zrange (n : Z) : list Z := map Z.of_nat (seq 0 (Z.to_nat n)).

Definition even_odd_polygon (r c : list Z) (sh : Z * Z) : list (Z * Z) :=
  filter (fun p => inside (combine r c) (fst p) (snd p))
         (list_prod (zrange (fst sh)) (zrange (snd sh))).

End Rasterizer.

Import Rasterizer.

(** ** Sample inputs *)

Module Samples.

Definition origin0 : vec3 Q := mk3 0%Q 0%Q 0%Q.
Definition spacing1 : vec3 Q := mk3 1%Q 1%Q 1%Q.
Definition ct10 : vec3 Z := mk3 10 8 8.

(** A square with corners (0,0) and (4,4) on the slice at [z] mm. *)
Definition square_at (z : Q) : contour :=
  mk_contour z [(0, 0); (0, 4); (4, 4); (4, 0)].

Definition box (z0 z1 y0 y1 x0 x1 : Z) : vec3 slice :=
  mk3 (mk_slice z0 z1) (mk_slice y0 y1) (mk_slice x0 x1).

(** An all-True mask filling its box. *)
Definition full (b : vec3 slice) : ndarray bool :=
  mk_array (extents b) (fun _ _ _ => true).

(** An annotation marking the square on slice 2. *)
Definition ann_in : annotation :=
  mk_annotation [square_at 2%Q] (full (box 2 3 0 4 0 4)) (box 2 3 0 4 0 4).

(** An annotation whose only contour lies at 50 mm, beyond the ten slices. *)
Definition ann_out : annotation :=
  mk_annotation [square_at 50%Q] (full (box 50 51 0 4 0 4)) (box 50 51 0 4 0 4).

(** An annotation marking the square on slices 2 and 3, slice 2 twice. *)
Definition ann_three : annotation :=
  mk_annotation [square_at 2%Q; square_at 2%Q; square_at 3%Q]
                (full (box 2 4 0 4 0 4)) (box 2 4 0 4 0 4).

(** An annotation whose contour lies in plane beyond the 8 x 8 slices. *)
Definition ann_far : annotation :=
  mk_annotation [mk_contour 2%Q [(20, 20); (20, 24); (24, 24); (24, 20)]]
                (full (box 2 3 20 24 20 24)) (box 2 3 20 24 20 24).

Definition scan_a : scan :=
  mk_scan "1.3.6.1" [ann_in; ann_out] [[ann_in; ann_out]].

(** Two overlapping boxes, neither inside the other, with full masks. *)
Definition ann_left : annotation :=
  mk_annotation [] (full (box 0 2 0 3 0 3)) (box 0 2 0 3 0 3).

Definition ann_right : annotation :=
  mk_annotation [] (full (box 1 3 1 4 2 5)) (box 1 3 1 4 2 5).

Definition scan_b : scan :=
  mk_scan "1.3.6.2" [ann_left; ann_right] [[ann_left; ann_right]].

Definition scan_c : scan :=
  mk_scan "1.3.6.3" [ann_three; ann_out] [[ann_three; ann_out]].

Definition db1 : list scan := [scan_a; scan_b].

Definition scan_far : scan := mk_scan "1.3.6.4" [ann_far] [[ann_far]].

(** What a call shows at one voxel of the mask it returns. *)
Definition voxel_of (r : mask_result) (i j k : Z) : option bool :=
  option_map (fun mb => cell (fst mb) i j k) r.

End Samples.

Import Samples.

(** ** Vocabulary of the statements *)

(** How many elements of a list satisfy a test. *)
Definition count_true {A} (f : A -> bool) (l : list A) : Z := len (filter f l).

(** The voxel [(i, j, k)] of a frame is marked by [mask] once the mask is
    placed in that frame at [offs]. *)
Definition placed (mask : ndarray bool) (offs : vec3 Z) (i j k : Z) : bool :=
  (ax0 offs <=? i) && (i <? ax0 offs + ax0 (shape mask)) &&
  (ax1 offs <=? j) && (j <? ax1 offs + ax1 (shape mask)) &&
  (ax2 offs <=? k) && (k <? ax2 offs + ax2 (shape mask)) &&
  cell mask (i - ax0 offs) (j - ax1 offs) (k - ax2 offs).

(** What [skimage.draw.polygon] promises when given [shape]: every pixel it
    returns lies inside that shape. *)
Definition polygon_in_shape (polygon : list Z -> list Z -> Z * Z -> list (Z * Z)) : Prop :=
  forall r c sh p, In p (polygon r c sh) ->
    0 <= fst p < fst sh /\ 0 <= snd p < snd sh.

(** A (mask, bbox) pair fits the frame that starts at [mins] and has shape
    [fused]: the slice written at line 405 lies inside the vote volume. *)
Definition fits (mins fused : vec3 Z) (mb : ndarray bool * vec3 slice) : Prop :=
  well_formed (fst mb) /\
  forall a, 0 <= get a (offsets (snd mb) mins) /\
            get a (offsets (snd mb) mins) + get a (shape (fst mb)) <= get a fused.

(** No contour of any annotation of the cluster maps into the slice range
    of the volume. *)
Definition no_contour_in_range (cluster : list annotation) (origin spacing : vec3 Q)
  (ct_shape : vec3 Z) : Prop :=
  forall ann c, In ann cluster -> In c (contours ann) ->
    z_index (image_z_position c) origin spacing < 0 \/
    ax0 ct_shape <= z_index (image_z_position c) origin spacing.



(** The kept contours have a point, and their in-plane box clipped to the
    volume has no negative extent. *)
Definition plane_extent_ok (valid : list (contour * Z)) (ct_shape : vec3 Z) : bool :=
  match plane_bounds (flat_map (fun cz => map fst (to_matrix (fst cz))) valid)
                     (flat_map (fun cz => map snd (to_matrix (fst cz))) valid)
                     ct_shape with
  | Returned (y_min, y_max, (x_min, x_max)) => (y_min <=? y_max) && (x_min <=? x_max)
  | Raised _ => false
  end.

(** The pixels [polygon] returns for a contour in the frame of a box whose
    mask has shape [sh]. *)
Definition contour_pixels (polygon : list Z -> list Z -> Z * Z -> list (Z * Z))
  (c : contour) (b : vec3 slice) (sh : vec3 Z) : list (Z * Z) :=
  polygon (map (fun p => fst p - start (ax1 b)) (to_matrix c))
          (map (fun p => snd p - start (ax2 b)) (to_matrix c))
          (ax1 sh, ax2 sh).

(** The annotation's own mask, rasterised in the frame of the box [b],
    marks the voxel [(i, j, k)]. *)
Definition marks (polygon : list Z -> list Z -> Z * Z -> list (Z * Z))
  (ann : annotation) (origin spacing : vec3 Q) (b : vec3 slice) (i j k : Z) : bool :=
  match ann_mask polygon ann origin spacing (extents b)
                 (start (ax0 b)) (stop (ax0 b) - 1) (start (ax1 b)) (start (ax2 b)) with
  | Returned m => cell m i j k
  | Raised _ => false
  end.

(** What a call did, up to the contents of the mask: raised, returned
    [None], or returned a mask with this bounding box. *)
Definition result_box (r : outcome mask_result) : outcome (option (vec3 slice)) :=
  match r with
  | Returned v => Returned (option_map snd v)
  | Raised e => Raised e
  end.

(** ** data_loader.py: Hounsfield-unit normalisation *)

Module HounsfieldWindow.





End HounsfieldWindow.

Import HounsfieldWindow.

(** ** Python dictionaries keyed by strings *)

(** A [dict] in insertion order: assigning to a present key replaces its
    value in place, assigning to an absent key appends the entry. *)
Definition dict (V : Type) : Type := list (string * V).

Fixpoint dict_get {V} (d : dict V) (k : string) : option V :=
  match d with
  | [] => None
  | (k', v) :: d' => if String.eqb k' k then Some v else dict_get d' k
  end.

Fixpoint dict_set {V} (d : dict V) (k : string) (v : V) : dict V :=
  match d with
  | [] => [(k, v)]
  | (k', v') :: d' =>
      if String.eqb k' k then (k', v) :: d' else (k', v') :: dict_set d' k v
  end.

Definition dict_keys {V} (d : dict V) : list string := map fst d.

(** ** lidc_loader.py: the scan cache *)

Module ScanCache.

Section Cache.

Variable db : list scan.

(** [get_scan_by_seriesuid], lines 96-106, with [self._scan_cache] passed in
    and out: a cached scan is returned as it is; otherwise the database is
    queried (the query is what [get_scan_by_seriesuid] above computes) and
    only a scan that was found is stored. *)
Definition get_scan_cached (cache : dict scan) (seriesuid : string)
  : option scan * dict scan :=
  match dict_get cache seriesuid with
  | Some sc => (Some sc, cache)
  | None =>
      match get_scan_by_seriesuid db seriesuid with
      | Some sc => (Some sc, dict_set cache seriesuid sc)
      | None => (None, cache)
      end
  end.

(** A run of lookups on one loader: the answers, and the cache left. *)
Fixpoint lookups (cache : dict scan) (seriesuids : list string)
  : list (option scan) * dict scan :=
  match seriesuids with
  | [] => ([], cache)
  | uid :: rest =>
      let (answer, cache1) := get_scan_cached cache uid in
      let (answers, cache2) := lookups cache1 rest in
      (answer :: answers, cache2)
  end.

(** Every cached scan is the one the database query returns. *)
Definition coherent (cache : dict scan) : Prop :=
  forall uid sc, dict_get cache uid = Some sc -> get_scan_by_seriesuid db uid = Some sc.

End Cache.

End ScanCache.

Import ScanCache.

(** ** lidc_loader.py: scores, clusters and bookkeeping *)

(** The feature scores the loader reads from a pylidc annotation. *)
Record features : Type := mk_features {
  subtlety : Z;
  texture : Z;
  sphericity : Z;
  margin : Z;
  lobulation : Z;
  spiculation : Z;
  calcification : Z;
  malignancy : Z
}.

(** A pylidc annotation with its identifier and scores; [geometry] is the
    part the mask functions read. *)
Record lidc_annotation : Type := mk_lidc_annotation {
  geometry : annotation;
  ann_id : Z;
  ann_features : features
}.

(** A pylidc scan with the attributes the bookkeeping functions read. *)
Record lidc_scan : Type := mk_lidc_scan {
  lidc_uid : string;
  patient_id : string;
  pixel_spacing : Q;
  slice_thickness : Q;
  slice_spacing : Q;
  lidc_annotations : list lidc_annotation;
  lidc_clusters : list (list lidc_annotation)
}.

(** The same scan as the mask functions see it. *)
Definition to_scan (sc : lidc_scan) : scan :=
  mk_scan (lidc_uid sc) (map geometry (lidc_annotations sc))
          (map (map geometry) (lidc_clusters sc)).

(** The dictionaries the loader returns, as records of their keys. *)
Record annotation_entry : Type := mk_annotation_entry {
  annotation_id : Z;
  entry_features : features;
  contour_count : Z;
  z_positions : list Q
}.

Record cluster_entry : Type := mk_cluster_entry {
  cluster_annotation_id : Z;
  cluster_features : features
}.

Record consensus : Type := mk_consensus {
  num_radiologists : Z;
  malignancy_mean : Q;
  malignancy_std : Q;
  malignancy_scores : list Z;
  consensus_label : string
}.

Record nodule_consensus : Type := mk_nodule_consensus {
  nodule_idx : Z;
  nodule_summary : consensus
}.

Record metadata : Type := mk_metadata {
  meta_patient_id : string;
  meta_pixel_spacing : Q;
  meta_slice_thickness : Q;
  meta_slice_spacing : Q;
  num_annotations : Z;
  num_nodules : Z
}.

Record overlap_report : Type := mk_overlap_report {
  luna16_total : Z;
  lidc_total : Z;
  overlap : Z;
  overlap_percentage : Q;
  only_in_luna16 : Z;
  only_in_lidc : Z;
  overlapping_uids : list string
}.

Module LIDCBookkeeping.

(** [MALIGNANCY_LABELS.get(rounded, 'Desconocido')], lines 60-66 and 227. *)
Definition malignancy_label (rounded : Z) : string :=
  match rounded with
  | 1 => "Altamente improbable"
  | 2 => "Moderadamente improbable"
  | 3 => "Indeterminado"
  | 4 => "Moderadamente sospechoso"
  | 5 => "Altamente sospechoso"
  | _ => "Desconocido"
  end.

(** [np.mean(scores)] of a non-empty list of integers. *)
Definition np_mean (scores : list Z) : Q :=
  (inject_Z (fold_right Z.add 0%Z scores) / inject_Z (len scores))%Q.

(** [set(l)], [a & b] and [a - b] on sets of strings, kept as lists
    without repetition (Python fixes no order on a set; no property below
    depends on the order chosen here). *)
Definition py_set (l : list string) : list string := nodup string_dec l.

Definition mem (x : string) (l : list string) : bool :=
  existsb (String.eqb x) l.

Definition set_inter (a b : list string) : list string :=
  filter (fun x => mem x b) a.

Definition set_diff (a b : list string) : list string :=
  filter (fun x => negb (mem x b)) a.

Section Bookkeeping.

(** [np.std], NumPy's population standard deviation (a square root), is
    kept abstract. *)
Variable np_std : list Z -> Q.

(** The scans of the pylidc database, in query order. *)
Variable ldb : list lidc_scan.

(** [get_scan_by_seriesuid] on the full records. *)
Definition get_lidc_scan (seriesuid : string) : option lidc_scan :=
  find (fun sc => String.eqb (lidc_uid sc) seriesuid) ldb.

(** [get_annotations], lines 132-155. *)
Definition get_annotations (seriesuid : string) : list annotation_entry :=
  match get_lidc_scan seriesuid with
  | None => []
  | Some sc =>
      map (fun ann =>
             mk_annotation_entry (ann_id ann) (ann_features ann)
               (len (contours (geometry ann)))
               (map image_z_position (contours (geometry ann))))
          (lidc_annotations sc)
  end.

(** [get_clustered_nodules], lines 172-197. *)
Definition get_clustered_nodules (seriesuid : string) : list (list cluster_entry) :=
  match get_lidc_scan seriesuid with
  | None => []
  | Some sc =>
      map (map (fun ann => mk_cluster_entry (ann_id ann) (ann_features ann)))
          (lidc_clusters sc)
  end.

(** Lines 223-236 and 293-305: mean, rounded mean, label and the returned
    entries, for a non-empty list of scores. *)
Definition describe (scores : list Z) : consensus :=
  let mean_score := np_mean scores in
  let rounded := rint mean_score in
  let label := malignancy_label rounded in
  mk_consensus (len scores) mean_score (np_std scores) scores label.

(** The loop of [get_consensus_malignancy], lines 221-236, from index
    [idx] on.  On an empty cluster [np.mean] is nan and [round] raises
    [ValueError], which nothing catches. *)
Fixpoint consensus_from (idx : Z) (clusters : list (list cluster_entry))
  : outcome (list nodule_consensus) :=
  match clusters with
  | [] => Returned []
  | cluster :: rest =>
      let scores := map (fun ann => malignancy (cluster_features ann)) cluster in
      if is_empty scores then Raised ValueError
      else
        results <- consensus_from (idx + 1) rest ;;
        Returned (mk_nodule_consensus idx (describe scores) :: results)
  end.

(** [get_consensus_malignancy], lines 218-238. *)
Definition get_consensus_malignancy (seriesuid : string)
  : outcome (list nodule_consensus) :=
  consensus_from 0 (get_clustered_nodules seriesuid).

(** [get_reliable_nodules], lines 255-266. *)
Definition get_reliable_nodules (seriesuid : string) (min_annotations : Z)
  : list (list lidc_annotation) :=
  match get_lidc_scan seriesuid with
  | None => []
  | Some sc =>
      filter (fun cluster => len cluster >=? min_annotations) (lidc_clusters sc)
  end.

(** [get_cluster_malignancy], lines 283-305. *)
Definition get_cluster_malignancy (cluster : list lidc_annotation) : consensus :=
  if is_empty cluster
  then mk_consensus 0 0%Q 0%Q [] "Sin datos"
  else describe (map (fun ann => malignancy (ann_features ann)) cluster).

(** [get_scan_metadata], lines 443-454. *)
Definition get_scan_metadata (seriesuid : string) : option metadata :=
  match get_lidc_scan seriesuid with
  | None => None
  | Some sc =>
      Some (mk_metadata (patient_id sc) (pixel_spacing sc) (slice_thickness sc)
                        (slice_spacing sc) (len (lidc_annotations sc))
                        (len (lidc_clusters sc)))
  end.

(** [map_luna16_to_lidc], lines 752-766: the returned mapping (the count
    [found] is only printed). *)
Definition map_luna16_to_lidc (seriesuids : list string) : dict (option string) :=
  fold_left (fun mapping uid =>
               match get_lidc_scan uid with
               | Some sc => dict_set mapping uid (Some (patient_id sc))
               | None => dict_set mapping uid None
               end)
            seriesuids [].

(** [get_all_lidc_seriesuids], lines 775-776. *)
Definition get_all_lidc_seriesuids : list string := map lidc_uid ldb.

(** [verify_luna16_lidc_overlap], lines 790-806. *)
Definition verify_luna16_lidc_overlap (luna16_seriesuids : list string)
  : overlap_report :=
  let lidc_uids := py_set get_all_lidc_seriesuids in
  let luna_uids := py_set luna16_seriesuids in
  let overlap := set_inter luna_uids lidc_uids in
  let only_luna := set_diff luna_uids lidc_uids in
  let only_lidc := set_diff lidc_uids luna_uids in
  mk_overlap_report
    (len luna_uids) (len lidc_uids) (len overlap)
    (if is_empty luna_uids then 0%Q
     else (inject_Z (len overlap) / inject_Z (len luna_uids) * 100)%Q)
    (len only_luna) (len only_lidc) overlap.

End Bookkeeping.

End LIDCBookkeeping.

Import LIDCBookkeeping.

(** Sample records for the bookkeeping functions. *)
Module BookSamples.

Definition scored (g : annotation) (id m : Z) : lidc_annotation :=
  mk_lidc_annotation g id (mk_features 3 3 3 3 3 3 3 m).

Definition lidc_a : lidc_scan :=
  mk_lidc_scan "1.3.6.1" "LIDC-IDRI-0001" (7 # 10) (5 # 2) (5 # 2)
    [scored ann_in 11 2; scored ann_out 12 3; scored ann_three 13 5]
    [[scored ann_in 11 2; scored ann_out 12 3]; [scored ann_three 13 5]].

Definition ldb1 : list lidc_scan := [lidc_a].

(** A stand-in for [np.std]; no statement depends on its values. *)
Definition std0 (scores : list Z) : Q := 0%Q.

End BookSamples.

Import BookSamples.


(** * Properties *)

(** ** Rounding and the coordinate round trip *)

Section RoundingFacts.

Local Open Scope Q_scope.

Lemma frac_bounds (x : Q) : 0 <= x - inject_Z (Qfloor x) /\ x - inject_Z (Qfloor x) < 1.
Proof.
  pose proof (Qfloor_le x) as Hlo.
  pose proof (Qlt_floor x) as Hhi.
  rewrite inject_Z_plus in Hhi.
  change (inject_Z 1) with 1 in Hhi.
  split; lra.
Qed.

Lemma rint_cases (x : Q) :
  (x - inject_Z (Qfloor x) < 1 # 2 /\ rint x = Qfloor x) \/
  (1 # 2 < x - inject_Z (Qfloor x) /\ rint x = (Qfloor x + 1)%Z) \/
  (x - inject_Z (Qfloor x) == 1 # 2 /\
   rint x = if Z.even (Qfloor x) then Qfloor x else (Qfloor x + 1)%Z).
Proof.
  unfold rint; cbv zeta.
  destruct (Qcompare (x - inject_Z (Qfloor x)) (1 # 2)) eqn:E.
  - right; right. apply Qeq_alt in E. split; [exact E | reflexivity].
  - left. apply Qlt_alt in E. split; [exact E | reflexivity].
  - right; left. apply Qgt_alt in E. split; [exact E | reflexivity].
Qed.



End RoundingFacts.

Section CoordinateTheorems.

Local Open Scope Q_scope.

Lemma get_world_to_voxel (a : axis) (p o s : vec3 Q) :
  get a (world_to_voxel p o s) = rint ((get a p - get a o) / get a s).
Proof. destruct a; reflexivity. Qed.

Lemma get_voxel_to_world (a : axis) (v : vec3 Z) (o s : vec3 Q) :
  get a (voxel_to_world v o s) = get a s * inject_Z (get a v) + get a o.
Proof. destruct a; reflexivity. Qed.


End CoordinateTheorems.






(** ** Minima, maxima and loops *)

Section PythonFacts.

Lemma fold_min_le (l : list Z) (a : Z) :
  fold_left Z.min l a <= a /\ forall x, In x l -> fold_left Z.min l a <= x.
Proof.
  revert a; induction l as [| b l IH]; intros a; simpl.
  - split; [lia | intros x []].
  - destruct (IH (Z.min a b)) as [H1 H2].
    split; [lia |].
    intros x [<- | Hx]; [lia | auto].
Qed.

Lemma fold_max_ge (l : list Z) (a : Z) :
  a <= fold_left Z.max l a /\ forall x, In x l -> x <= fold_left Z.max l a.
Proof.
  revert a; induction l as [| b l IH]; intros a; simpl.
  - split; [lia | intros x []].
  - destruct (IH (Z.max a b)) as [H1 H2].
    split; [lia |].
    intros x [<- | Hx]; [lia | auto].
Qed.

Lemma fold_min_In (l : list Z) (a : Z) : In (fold_left Z.min l a) (a :: l).
Proof.
  revert a; induction l as [| b l IH]; intros a; simpl.
  - now left.
  - destruct (IH (Z.min a b)) as [H | H].
    + destruct (Z.min_spec a b) as [[_ E] | [_ E]]; rewrite E in H |- *; auto.
    + auto.
Qed.

Lemma fold_max_In (l : list Z) (a : Z) : In (fold_left Z.max l a) (a :: l).
Proof.
  revert a; induction l as [| b l IH]; intros a; simpl.
  - now left.
  - destruct (IH (Z.max a b)) as [H | H].
    + destruct (Z.max_spec a b) as [[_ E] | [_ E]]; rewrite E in H |- *; auto.
    + auto.
Qed.

Lemma py_min_spec (l : list Z) :
  l <> [] ->
  exists m, py_min l = Returned m /\ In m l /\ forall x, In x l -> m <= x.
Proof.
  destruct l as [| a l]; [congruence | intros _].
  exists (fold_left Z.min l a). split; [reflexivity |].
  split; [apply fold_min_In |].
  destruct (fold_min_le l a) as [H1 H2].
  intros x [<- | Hx]; auto.
Qed.

Lemma py_max_spec (l : list Z) :
  l <> [] ->
  exists m, py_max l = Returned m /\ In m l /\ forall x, In x l -> x <= m.
Proof.
  destruct l as [| a l]; [congruence | intros _].
  exists (fold_left Z.max l a). split; [reflexivity |].
  split; [apply fold_max_In |].
  destruct (fold_max_ge l a) as [H1 H2].
  intros x [<- | Hx]; auto.
Qed.

Lemma py_min_Returned (l : list Z) (m : Z) :
  py_min l = Returned m -> In m l /\ forall x, In x l -> m <= x.
Proof.
  intros H. destruct l as [| a l]; [discriminate |].
  destruct (py_min_spec (a :: l)) as (m' & E & Hin & Hle); [discriminate |].
  rewrite H in E. injection E as <-. auto.
Qed.

Lemma py_max_Returned (l : list Z) (m : Z) :
  py_max l = Returned m -> In m l /\ forall x, In x l -> x <= m.
Proof.
  intros H. destruct l as [| a l]; [discriminate |].
  destruct (py_max_spec (a :: l)) as (m' & E & Hin & Hle); [discriminate |].
  rewrite H in E. injection E as <-. auto.
Qed.

Lemma bind_Returned {A B} (m : outcome A) (k : A -> outcome B) (b : B) :
  (x <- m ;; k x) = Returned b -> exists a, m = Returned a /\ k a = Returned b.
Proof. destruct m as [a | e]; simpl; [eauto | discriminate]. Qed.

(** A loop returns when each iteration does, and keeps what they keep. *)
Lemma foldM_invariant {A S} (f : S -> A -> outcome S) (I : S -> Prop) (l : list A) :
  (forall s a, In a l -> I s -> exists s', f s a = Returned s' /\ I s') ->
  forall s, I s -> exists s', foldM f l s = Returned s' /\ I s'.
Proof.
  induction l as [| a l IH]; intros Hstep s Hs; simpl.
  - eauto.
  - destruct (Hstep s a (or_introl eq_refl) Hs) as (s1 & E & Hs1).
    rewrite E; simpl. apply IH; [| exact Hs1].
    intros s0 a0 Hin. apply Hstep. now right.
Qed.

(** What a returning loop keeps, when each returning iteration keeps it. *)
Lemma foldM_preserves {A S} (f : S -> A -> outcome S) (I : S -> Prop) (l : list A) :
  (forall s a s', In a l -> I s -> f s a = Returned s' -> I s') ->
  forall s s', I s -> foldM f l s = Returned s' -> I s'.
Proof.
  induction l as [| a l IH]; intros Hstep s s' Hs; simpl.
  - intros E; injection E as <-; exact Hs.
  - intros E. apply bind_Returned in E. destruct E as (s1 & E1 & E2).
    assert (Hs1 : I s1) by (apply (Hstep s a s1); [now left | exact Hs | exact E1]).
    exact (IH (fun s0 a0 s0' Hin => Hstep s0 a0 s0' (or_intror Hin)) s1 s' Hs1 E2).
Qed.

End PythonFacts.

(** ** Bounding-box fusion *)

Section Fusion.

Lemma np_min_axis0_spec (rows : list (vec3 Z)) :
  rows <> [] ->
  exists m, np_min_axis0 rows = Returned m /\
            forall a, (exists r, In r rows /\ get a r = get a m) /\
                      forall r, In r rows -> get a m <= get a r.
Proof.
  intros Hne.
  assert (Hmap : forall f : vec3 Z -> Z, map f rows <> []).
  { intros f E. apply map_eq_nil in E. contradiction. }
  destruct (py_min_spec _ (Hmap ax0)) as (m0 & E0 & I0 & H0).
  destruct (py_min_spec _ (Hmap ax1)) as (m1 & E1 & I1 & H1).
  destruct (py_min_spec _ (Hmap ax2)) as (m2 & E2 & I2 & H2).
  exists (mk3 m0 m1 m2). unfold np_min_axis0. rewrite E0, E1, E2. simpl.
  split; [reflexivity |].
  apply in_map_iff in I0, I1, I2.
  destruct I0 as (r0 & R0 & I0), I1 as (r1 & R1 & I1), I2 as (r2 & R2 & I2).
  intros []; simpl; (split; [eauto |]); intros r Hin;
    [apply H0 | apply H1 | apply H2]; now apply in_map.
Qed.

Lemma np_max_axis0_spec (rows : list (vec3 Z)) :
  rows <> [] ->
  exists m, np_max_axis0 rows = Returned m /\
            forall a, (exists r, In r rows /\ get a r = get a m) /\
                      forall r, In r rows -> get a r <= get a m.
Proof.
  intros Hne.
  assert (Hmap : forall f : vec3 Z -> Z, map f rows <> []).
  { intros f E. apply map_eq_nil in E. contradiction. }
  destruct (py_max_spec _ (Hmap ax0)) as (m0 & E0 & I0 & H0).
  destruct (py_max_spec _ (Hmap ax1)) as (m1 & E1 & I1 & H1).
  destruct (py_max_spec _ (Hmap ax2)) as (m2 & E2 & I2 & H2).
  exists (mk3 m0 m1 m2). unfold np_max_axis0. rewrite E0, E1, E2. simpl.
  split; [reflexivity |].
  apply in_map_iff in I0, I1, I2.
  destruct I0 as (r0 & R0 & I0), I1 as (r1 & R1 & I1), I2 as (r2 & R2 & I2).
  intros []; simpl; (split; [eauto |]); intros r Hin;
    [apply H0 | apply H1 | apply H2]; now apply in_map.
Qed.

Lemma get_map3 {A B} (f : A -> B) (v : vec3 A) (a : axis) :
  get a (map3 f v) = f (get a v).
Proof. destruct a; reflexivity. Qed.

Lemma get_zip3 {A B C} (f : A -> B -> C) (u : vec3 A) (v : vec3 B) (a : axis) :
  get a (zip3 f u v) = f (get a u) (get a v).
Proof. destruct a; reflexivity. Qed.

(** The fused box exists; its bounds are, axis by axis, the least start and
    the greatest stop among the boxes. *)
Lemma fused_box_is_min_max (mbs : list (ndarray bool * vec3 slice)) :
  mbs <> [] ->
  exists mins maxs,
    min_starts mbs = Returned mins /\ max_ends mbs = Returned maxs /\
    (forall a, (exists mb, In mb mbs /\ start (get a (snd mb)) = get a mins) /\
               (exists mb, In mb mbs /\ stop (get a (snd mb)) = get a maxs)) /\
    forall mb a, In mb mbs ->
      get a mins <= start (get a (snd mb)) /\ stop (get a (snd mb)) <= get a maxs.
Proof.
  intros Hne.
  assert (Hmap : forall f : ndarray bool * vec3 slice -> vec3 Z, map f mbs <> []).
  { intros f E. apply map_eq_nil in E. contradiction. }
  destruct (np_min_axis0_spec _ (Hmap (fun mb => map3 start (snd mb)))) as (mins & Emin & Hmin).
  destruct (np_max_axis0_spec _ (Hmap (fun mb => map3 stop (snd mb)))) as (maxs & Emax & Hmax).
  exists mins, maxs. split; [exact Emin |]. split; [exact Emax |]. split.
  - intros a. destruct (Hmin a) as [(r & Hr & Er) _]. destruct (Hmax a) as [(r' & Hr' & Er') _].
    apply in_map_iff in Hr, Hr'.
    destruct Hr as (mb & <- & Hmb), Hr' as (mb' & <- & Hmb').
    rewrite get_map3 in Er, Er'. split; eauto.
  - intros mb a Hin. split.
    + destruct (Hmin a) as [_ H]. specialize (H (map3 start (snd mb))).
      rewrite get_map3 in H. apply H.
      apply (in_map (fun mb => map3 start (snd mb))). assumption.
    + destruct (Hmax a) as [_ H]. specialize (H (map3 stop (snd mb))).
      rewrite get_map3 in H. apply H.
      apply (in_map (fun mb => map3 stop (snd mb))). assumption.
Qed.

(** A slice that fits the axis is taken as written. *)
Lemma region_exact (n off size : Z) :
  0 <= off -> 0 <= size -> off + size <= n -> region n off size = (off, size).
Proof.
  intros H0 H1 H2. unfold region, slice_indices.
  destruct (Z.ltb_spec off 0); [lia |].
  destruct (Z.ltb_spec (off + size) 0); [lia |].
  f_equal; lia.
Qed.

(** A mask that fits the vote volume at its offsets is added in place: no
    error, the shape is kept, and each voxel gains one where the placed
    mask marks it. *)
Lemma add_at_fits (v : ndarray Q) (offs : vec3 Z) (mask : ndarray bool) :
  well_formed mask ->
  (forall a, 0 <= get a offs /\ get a offs + get a (shape mask) <= get a (shape v)) ->
  exists v', add_at v offs mask = Returned v' /\ shape v' = shape v /\
    forall i j k, (cell v' i j k == cell v i j k + b2q (placed mask offs i j k))%Q.
Proof.
  intros (W0 & W1 & W2) Hfit.
  pose proof (Hfit Zax) as [A0 B0]. pose proof (Hfit Yax) as [A1 B1].
  pose proof (Hfit Xax) as [A2 B2]. simpl in *.
  unfold add_at, zip3. cbn [ax0 ax1 ax2 fst snd].
  rewrite !region_exact by assumption. cbn [fst snd].
  unfold broadcastable. rewrite !Z.eqb_refl. simpl.
  eexists. split; [reflexivity |]. split; [reflexivity |].
  intros i j k. simpl. unfold placed, in_slice, src_index; simpl.
  destruct ((ax0 offs <=? i) && (i <? ax0 offs + ax0 (shape mask))) eqn:E0; simpl;
    [| unfold b2q; lra].
  destruct ((ax1 offs <=? j) && (j <? ax1 offs + ax1 (shape mask))) eqn:E1; simpl;
    [| unfold b2q; lra].
  destruct ((ax2 offs <=? k) && (k <? ax2 offs + ax2 (shape mask))) eqn:E2; simpl;
    [| unfold b2q; lra].
  assert (S0 : (if ax0 (shape mask) =? 1 then 0 else i - ax0 offs) = i - ax0 offs).
  { destruct (Z.eqb_spec (ax0 (shape mask)) 1); [lia | reflexivity]. }
  assert (S1 : (if ax1 (shape mask) =? 1 then 0 else j - ax1 offs) = j - ax1 offs).
  { destruct (Z.eqb_spec (ax1 (shape mask)) 1); [lia | reflexivity]. }
  assert (S2 : (if ax2 (shape mask) =? 1 then 0 else k - ax2 offs) = k - ax2 offs).
  { destruct (Z.eqb_spec (ax2 (shape mask)) 1); [lia | reflexivity]. }
  rewrite S0, S1, S2. reflexivity.
Qed.

End Fusion.

(** ** Vote accumulation in the native frame *)

Section NativeVotes.

Local Open Scope Q_scope.

Lemma count_true_cons {A} (f : A -> bool) (a : A) (l : list A) :
  count_true f (a :: l) = ((if f a then 1 else 0) + count_true f l)%Z.
Proof.
  unfold count_true, len. cbn [filter].
  destruct (f a); cbn [List.length]; lia.
Qed.


Lemma b2q_inject (b : bool) : b2q b == inject_Z (if b then 1 else 0).
Proof. destruct b; reflexivity. Qed.

Lemma vote_loop_fits (mbs : list (ndarray bool * vec3 slice)) (mins : vec3 Z) :
  forall v : ndarray Q,
  (forall mb, In mb mbs -> fits mins (shape v) mb) ->
  exists v',
    foldM (fun v mb => add_at v (offsets (snd mb) mins) (fst mb)) mbs v = Returned v' /\
    shape v' = shape v /\
    forall i j k,
      cell v' i j k ==
      cell v i j k +
      inject_Z (count_true (fun mb => placed (fst mb) (offsets (snd mb) mins) i j k) mbs).
Proof.
  induction mbs as [| mb mbs IH]; intros v Hfit.
  - exists v. split; [reflexivity |]. split; [reflexivity |].
    intros i j k. unfold count_true, len; simpl. change (inject_Z 0) with 0. lra.
  - destruct (Hfit mb (or_introl eq_refl)) as [Hwf Hoff].
    destruct (add_at_fits v (offsets (snd mb) mins) (fst mb) Hwf Hoff)
      as (v1 & E1 & Hs1 & Hc1).
    destruct (IH v1) as (v' & E' & Hs' & Hc').
    { intros mb' Hin. rewrite Hs1. apply Hfit. now right. }
    exists v'. simpl. rewrite E1. simpl.
    split; [exact E' |]. split; [congruence |].
    intros i j k. rewrite Hc', Hc1, count_true_cons, inject_Z_plus, b2q_inject. ring.
Qed.

Lemma accumulate_votes_fits (mbs : list (ndarray bool * vec3 slice))
  (mins fused : vec3 Z) :
  (forall a, 0 <= get a fused)%Z ->
  (forall mb, In mb mbs -> fits mins fused mb) ->
  exists v,
    accumulate_votes mbs mins fused = Returned v /\ shape v = fused /\
    forall i j k,
      cell v i j k ==
      inject_Z (count_true (fun mb => placed (fst mb) (offsets (snd mb) mins) i j k) mbs).
Proof.
  intros Hpos Hfit. unfold accumulate_votes, np_zeros.
  pose proof (Hpos Zax) as P0. pose proof (Hpos Yax) as P1. pose proof (Hpos Xax) as P2.
  simpl in P0, P1, P2.
  apply Z.leb_le in P0, P1, P2. rewrite P0, P1, P2. simpl.
  destruct (vote_loop_fits mbs mins (mk_array fused (fun _ _ _ => 0))) as (v & E & Hs & Hc).
  { exact Hfit. }
  exists v. split; [exact E |]. split; [exact Hs |].
  intros i j k. rewrite Hc. simpl. lra.
Qed.

(** Masks as large as their boxes fit the fused frame of those boxes. *)
Lemma boxes_fit_fused (mbs : list (ndarray bool * vec3 slice)) (mins maxs : vec3 Z) :
  min_starts mbs = Returned mins -> max_ends mbs = Returned maxs ->
  (forall mb a, In mb mbs ->
     get a mins <= start (get a (snd mb)) /\ stop (get a (snd mb)) <= get a maxs)%Z ->
  (forall mb, In mb mbs -> well_formed (fst mb) /\ shape (fst mb) = extents (snd mb)) ->
  forall mb, In mb mbs -> fits mins (zip3 Z.sub maxs mins) mb.
Proof.
  intros _ _ Hbox Hsh mb Hin.
  destruct (Hsh mb Hin) as [Hwf Hext].
  split; [exact Hwf |].
  intros a. destruct (Hbox mb a Hin) as [Hlo Hhi].
  unfold offsets. rewrite Hext. unfold extents.
  rewrite !get_zip3, !get_map3. lia.
Qed.

Lemma fused_shape_nonneg (mbs : list (ndarray bool * vec3 slice)) (mins maxs : vec3 Z) :
  mbs <> [] ->
  (forall mb, In mb mbs -> fits mins (zip3 Z.sub maxs mins) mb) ->
  (forall a, 0 <= get a (zip3 Z.sub maxs mins))%Z.
Proof.
  intros Hne Hfit a.
  destruct mbs as [| mb mbs]; [congruence |].
  destruct (Hfit mb (or_introl eq_refl)) as [(W0 & W1 & W2) Hoff].
  specialize (Hoff a). destruct a; simpl in *; lia.
Qed.

End NativeVotes.

Section NativeConsensus.

Local Open Scope Q_scope.

Lemma count_true_map {A B} (f : B -> bool) (g : A -> B) (l : list A) :
  count_true f (map g l) = count_true (fun x => f (g x)) l.
Proof.
  induction l as [| a l IH]; [reflexivity |].
  cbn [map]. rewrite !count_true_cons, IH. reflexivity.
Qed.

Lemma len_map {A B} (g : A -> B) (l : list A) : len (map g l) = len l.
Proof. unfold len. now rewrite length_map. Qed.

Lemma is_empty_false {A} (l : list A) : l <> [] -> is_empty l = false.
Proof. destruct l; [congruence | reflexivity]. Qed.

(** On a non-empty cluster whose native masks are as large as their boxes,
    [get_consensus_mask]'s body returns the fused box and, at every voxel,
    the comparison of the threshold with the share of the cluster's
    annotations whose placed mask marks the voxel. *)
Lemma consensus_body_returns (cluster : list annotation) (t : Q) :
  cluster <> [] ->
  (forall ann, In ann cluster ->
     well_formed (boolean_mask ann) /\ shape (boolean_mask ann) = extents (bbox ann)) ->
  exists mins maxs m,
    min_starts (map (fun ann => (boolean_mask ann, bbox ann)) cluster) = Returned mins /\
    max_ends (map (fun ann => (boolean_mask ann, bbox ann)) cluster) = Returned maxs /\
    consensus_body cluster t = Returned (Some (m, zip3 mk_slice mins maxs)) /\
    shape m = zip3 Z.sub maxs mins /\
    forall i j k,
      cell m i j k =
      Qle_bool t
        (inject_Z (count_true
                     (fun ann => placed (boolean_mask ann) (offsets (bbox ann) mins) i j k)
                     cluster)
         / inject_Z (len cluster)).
Proof.
  intros Hne Hsh.
  set (mbs := map (fun ann => (boolean_mask ann, bbox ann)) cluster).
  assert (Hmbs : mbs <> []).
  { intros E. apply map_eq_nil in E. contradiction. }
  destruct (fused_box_is_min_max mbs Hmbs) as (mins & maxs & Emin & Emax & _ & Hbox).
  assert (Hsh' : forall mb, In mb mbs -> well_formed (fst mb) /\ shape (fst mb) = extents (snd mb)).
  { intros mb Hin. apply in_map_iff in Hin. destruct Hin as (ann & <- & Hann).
    simpl. auto. }
  pose proof (boxes_fit_fused mbs mins maxs Emin Emax Hbox Hsh') as Hfit.
  pose proof (fused_shape_nonneg mbs mins maxs Hmbs Hfit) as Hpos.
  destruct (accumulate_votes_fits mbs mins _ Hpos Hfit) as (v & Ev & Hs & Hc).
  exists mins, maxs.
  eexists. split; [exact Emin |]. split; [exact Emax |].
  unfold consensus_body. fold mbs.
  rewrite (is_empty_false mbs Hmbs), Emin, Emax. simpl. rewrite Ev. simpl.
  split; [reflexivity |]. split; [exact Hs |].
  intros i j k. simpl. rewrite Hc. unfold mbs. rewrite count_true_map, len_map.
  reflexivity.
Qed.

End NativeConsensus.

(** C6.  For every non-empty list of (mask, bbox) pairs whose masks are as
    large as their boxes, the fused box of [get_consensus_mask] has the
    least start and the greatest stop on each axis; each input's offset
    (its start minus the fused start) is non-negative and the input ends
    inside the fused shape; and accumulating the masks into the zeroed
    volume of the fused shape returns without any indexing error. *)
Theorem fusion_offsets_in_bounds (mbs : list (ndarray bool * vec3 slice)) :
  mbs <> [] ->
  (forall mb, In mb mbs -> well_formed (fst mb) /\ shape (fst mb) = extents (snd mb)) ->
  exists mins maxs v,
    min_starts mbs = Returned mins /\ max_ends mbs = Returned maxs /\
    (forall a, (exists mb, In mb mbs /\ start (get a (snd mb)) = get a mins) /\
               (exists mb, In mb mbs /\ stop (get a (snd mb)) = get a maxs)) /\
    (forall mb a, In mb mbs ->
       get a mins <= start (get a (snd mb)) /\ stop (get a (snd mb)) <= get a maxs /\
       get a (offsets (snd mb) mins) = start (get a (snd mb)) - get a mins /\
       0 <= get a (offsets (snd mb) mins) /\
       get a (offsets (snd mb) mins) + get a (shape (fst mb))
         <= get a (zip3 Z.sub maxs mins)) /\
    accumulate_votes mbs mins (zip3 Z.sub maxs mins) = Returned v /\
    shape v = zip3 Z.sub maxs mins.
Proof.
  intros Hne Hsh.
  destruct (fused_box_is_min_max mbs Hne) as (mins & maxs & Emin & Emax & Hext & Hbox).
  pose proof (boxes_fit_fused mbs mins maxs Emin Emax Hbox Hsh) as Hfit.
  pose proof (fused_shape_nonneg mbs mins maxs Hne Hfit) as Hpos.
  destruct (accumulate_votes_fits mbs mins _ Hpos Hfit) as (v & Ev & Hs & _).
  exists mins, maxs, v.
  split; [exact Emin |]. split; [exact Emax |]. split; [exact Hext |].
  split; [| split; [exact Ev | exact Hs]].
  intros mb a Hin.
  destruct (Hbox mb a Hin) as [Hlo Hhi].
  destruct (Hfit mb Hin) as [_ Hoff]. specialize (Hoff a).
  repeat split; try tauto.
  unfold offsets. rewrite get_zip3, get_map3. reflexivity.
Qed.

Lemma fusion_offsets_in_bounds_witness :
  exists mins maxs v,
    min_starts [(boolean_mask ann_left, bbox ann_left);
                (boolean_mask ann_right, bbox ann_right)] = Returned mins /\
    max_ends [(boolean_mask ann_left, bbox ann_left);
              (boolean_mask ann_right, bbox ann_right)] = Returned maxs /\
    mins = mk3 0 0 0 /\ maxs = mk3 3 4 5 /\
    accumulate_votes [(boolean_mask ann_left, bbox ann_left);
                      (boolean_mask ann_right, bbox ann_right)]
                     mins (zip3 Z.sub maxs mins) = Returned v /\
    shape v = mk3 3 4 5.
Proof.
  assert (Hne : [(boolean_mask ann_left, bbox ann_left);
                 (boolean_mask ann_right, bbox ann_right)] <> []) by discriminate.
  assert (Hsh : forall mb,
             In mb [(boolean_mask ann_left, bbox ann_left);
                    (boolean_mask ann_right, bbox ann_right)] ->
             well_formed (fst mb) /\ shape (fst mb) = extents (snd mb)).
  { intros mb [<- | [<- | []]]; split; try reflexivity;
      unfold well_formed; simpl; lia. }
  destruct (fusion_offsets_in_bounds _ Hne Hsh)
    as (mins & maxs & v & Emin & Emax & _ & _ & Ev & Hs).
  exists mins, maxs, v.
  assert (E1 : mins = mk3 0 0 0) by (vm_compute in Emin; congruence).
  assert (E2 : maxs = mk3 3 4 5) by (vm_compute in Emax; congruence).
  subst mins maxs. repeat split; assumption.
Defined.

Section Wrappers.

Variable polygon : list Z -> list Z -> Z * Z -> list (Z * Z).
Variable db : list scan.

Lemma ge_false (i n : Z) : i < n -> (i >=? n) = false.
Proof. intros H. rewrite Z.geb_leb. apply Z.leb_gt. exact H. Qed.

(** With the scan found and the index selecting a cluster, each consensus
    call returns what its [try] block yields. *)
Lemma get_consensus_mask_selects (uid : string) (idx : Z) (t : Q)
  (sc : scan) (cluster : list annotation) :
  get_scan_by_seriesuid db uid = Some sc ->
  idx < len (cluster_annotations sc) ->
  py_getitem (cluster_annotations sc) idx = Returned cluster ->
  get_consensus_mask db uid idx t = Returned (try_except_None (consensus_body cluster t)).
Proof.
  intros Hsc Hidx Hget. unfold get_consensus_mask.
  rewrite Hsc, (ge_false _ _ Hidx), Hget. reflexivity.
Qed.

Lemma get_aligned_consensus_mask_selects (uid : string) (idx : Z)
  (o s : vec3 Q) (ct : vec3 Z) (t : Q) (sc : scan) (cluster : list annotation) :
  get_scan_by_seriesuid db uid = Some sc ->
  idx < len (cluster_annotations sc) ->
  py_getitem (cluster_annotations sc) idx = Returned cluster ->
  get_aligned_consensus_mask polygon db uid idx o s ct t =
  Returned (try_except_None (aligned_consensus_body polygon cluster o s ct t)).
Proof.
  intros Hsc Hidx Hget. unfold get_aligned_consensus_mask.
  rewrite Hsc, (ge_false _ _ Hidx), Hget. reflexivity.
Qed.

Lemma get_aligned_mask_selects (uid : string) (idx : Z)
  (o s : vec3 Q) (ct : vec3 Z) (sc : scan) (ann : annotation) :
  get_scan_by_seriesuid db uid = Some sc ->
  idx < len (annotations sc) ->
  py_getitem (annotations sc) idx = Returned ann ->
  get_aligned_mask polygon db uid idx o s ct =
  Returned (try_except_None (aligned_mask_body polygon ann o s ct)).
Proof.
  intros Hsc Hidx Hget. unfold get_aligned_mask.
  rewrite Hsc, (ge_false _ _ Hidx), Hget. reflexivity.
Qed.

(** Conversely, a call that returns a mask found its scan and selected a
    cluster (an annotation) whose [try] block returned that mask. *)
Lemma get_consensus_mask_inv (uid : string) (idx : Z) (t : Q)
  (r : ndarray bool * vec3 slice) :
  get_consensus_mask db uid idx t = Returned (Some r) ->
  exists sc cluster,
    get_scan_by_seriesuid db uid = Some sc /\
    py_getitem (cluster_annotations sc) idx = Returned cluster /\
    consensus_body cluster t = Returned (Some r).
Proof.
  unfold get_consensus_mask.
  destruct (get_scan_by_seriesuid db uid) as [sc |]; [| discriminate].
  destruct (idx >=? len (cluster_annotations sc)); [discriminate |].
  destruct (py_getitem (cluster_annotations sc) idx) as [cluster | e] eqn:Hget;
    [| discriminate].
  simpl. intros E. exists sc, cluster. split; [reflexivity |]. split; [exact Hget |].
  destruct (consensus_body cluster t) as [[r' |] | e]; simpl in E;
    first [exact E | discriminate E].
Qed.

Lemma get_aligned_consensus_mask_inv (uid : string) (idx : Z)
  (o s : vec3 Q) (ct : vec3 Z) (t : Q) (r : ndarray bool * vec3 slice) :
  get_aligned_consensus_mask polygon db uid idx o s ct t = Returned (Some r) ->
  exists sc cluster,
    get_scan_by_seriesuid db uid = Some sc /\
    py_getitem (cluster_annotations sc) idx = Returned cluster /\
    aligned_consensus_body polygon cluster o s ct t = Returned (Some r).
Proof.
  unfold get_aligned_consensus_mask.
  destruct (get_scan_by_seriesuid db uid) as [sc |]; [| discriminate].
  destruct (idx >=? len (cluster_annotations sc)); [discriminate |].
  destruct (py_getitem (cluster_annotations sc) idx) as [cluster | e] eqn:Hget;
    [| discriminate].
  simpl. intros E. exists sc, cluster. split; [reflexivity |]. split; [exact Hget |].
  destruct (aligned_consensus_body polygon cluster o s ct t) as [[r' |] | e];
    simpl in E; first [exact E | discriminate E].
Qed.

Lemma get_aligned_mask_inv (uid : string) (idx : Z)
  (o s : vec3 Q) (ct : vec3 Z) (r : ndarray bool * vec3 slice) :
  get_aligned_mask polygon db uid idx o s ct = Returned (Some r) ->
  exists sc ann,
    get_scan_by_seriesuid db uid = Some sc /\
    py_getitem (annotations sc) idx = Returned ann /\
    aligned_mask_body polygon ann o s ct = Returned (Some r).
Proof.
  unfold get_aligned_mask.
  destruct (get_scan_by_seriesuid db uid) as [sc |]; [| discriminate].
  destruct (idx >=? len (annotations sc)); [discriminate |].
  destruct (py_getitem (annotations sc) idx) as [ann | e] eqn:Hget; [| discriminate].
  simpl. intros E. exists sc, ann. split; [reflexivity |]. split; [exact Hget |].
  destruct (aligned_mask_body polygon ann o s ct) as [[r' |] | e];
    simpl in E; first [exact E | discriminate E].
Qed.

Lemma get_aligned_mask_for_cluster_inv (cluster : list annotation)
  (o s : vec3 Q) (ct : vec3 Z) (t : Q) (r : ndarray bool * vec3 slice) :
  get_aligned_mask_for_cluster polygon cluster o s ct t = Some r ->
  aligned_consensus_body polygon cluster o s ct t = Returned (Some r).
Proof.
  unfold get_aligned_mask_for_cluster.
  destruct (is_empty cluster); [discriminate |].
  destruct (aligned_consensus_body polygon cluster o s ct t) as [[r' |] | e];
    simpl; intros E; first [now rewrite E | discriminate E].
Qed.

End Wrappers.



(** ** The aligned reconstructions, step by step *)

(** Resolve the first [x <- m ;; k] of a hypothesis that says the whole
    computation returned. *)
Ltac step_bind H x E :=
  match type of H with
  | bind ?m _ = Returned _ =>
      destruct m as [x | ?] eqn:E; cbn [bind] in H; [| discriminate H]
  end.

Section AlignedSteps.

Variable polygon : list Z -> list Z -> Z * Z -> list (Z * Z).

Lemma is_empty_true_iff {A} (l : list A) : is_empty l = true <-> l = [].
Proof. destruct l; simpl; split; congruence. Qed.

Lemma np_zeros_inv {A} (zero : A) (sh : vec3 Z) (m : ndarray A) :
  np_zeros zero sh = Returned m ->
  m = mk_array sh (fun _ _ _ => zero) /\ (0 <= ax0 sh /\ 0 <= ax1 sh /\ 0 <= ax2 sh).
Proof.
  unfold np_zeros.
  destruct (0 <=? ax0 sh) eqn:E0; [| discriminate].
  destruct (0 <=? ax1 sh) eqn:E1; [| discriminate].
  destruct (0 <=? ax2 sh) eqn:E2; [| discriminate].
  simpl. intros E. injection E as <-.
  apply Z.leb_le in E0, E1, E2. auto.
Qed.

Lemma set_true_at_shape (m m' : ndarray bool) (z : Z) (ps : list (Z * Z)) :
  set_true_at m z ps = Returned m' -> shape m' = shape m.
Proof.
  unfold set_true_at. destruct (norm_pixels (shape m) ps); [| discriminate].
  intros E. injection E as <-. reflexivity.
Qed.

Lemma rasterize_shape (m m' : ndarray bool) (z_min y_min x_min : Z) (c : contour) (z : Z) :
  rasterize polygon m z_min y_min x_min c z = Returned m' -> shape m' = shape m.
Proof.
  unfold rasterize.
  destruct ((0 <=? z - z_min) && (z - z_min <? ax0 (shape m))).
  - apply set_true_at_shape.
  - intros E. injection E as <-. reflexivity.
Qed.

(** What a returned [get_aligned_mask] body went through. *)
Lemma aligned_mask_body_inv (ann : annotation) (o s : vec3 Q) (ct : vec3 Z)
  (m : ndarray bool) (b : vec3 slice) :
  aligned_mask_body polygon ann o s ct = Returned (Some (m, b)) ->
  exists z_min z_max y_min y_max x_min x_max m0,
    contours ann <> [] /\
    valid_contours (contours ann) o s ct <> [] /\
    py_min (map snd (valid_contours (contours ann) o s ct)) = Returned z_min /\
    py_max (map snd (valid_contours (contours ann) o s ct)) = Returned z_max /\
    plane_bounds
      (flat_map (fun cz => map fst (to_matrix (fst cz))) (valid_contours (contours ann) o s ct))
      (flat_map (fun cz => map snd (to_matrix (fst cz))) (valid_contours (contours ann) o s ct))
      ct = Returned (y_min, y_max, (x_min, x_max)) /\
    np_zeros false (mk3 (z_max - z_min + 1) (y_max - y_min) (x_max - x_min)) = Returned m0 /\
    foldM (fun m cz => rasterize polygon m z_min y_min x_min (fst cz) (snd cz))
          (valid_contours (contours ann) o s ct) m0 = Returned m /\
    b = mk3 (mk_slice z_min (z_max + 1)) (mk_slice y_min y_max) (mk_slice x_min x_max).
Proof.
  unfold aligned_mask_body. intros H.
  destruct (is_empty (contours ann)) eqn:Ec; [discriminate H |].
  destruct (is_empty (valid_contours (contours ann) o s ct)) eqn:Ev; [discriminate H |].
  step_bind H z_min Ezmin. step_bind H z_max Ezmax. step_bind H yx Eyx.
  destruct yx as [[y_min y_max] [x_min x_max]].
  step_bind H m0 Em0. step_bind H m1 Em1.
  injection H as -> <-.
  exists z_min, z_max, y_min, y_max, x_min, x_max, m0.
  repeat split; try assumption.
  - intros E. apply is_empty_true_iff in E. congruence.
  - intros E. apply is_empty_true_iff in E. congruence.
Qed.

(** The vote loop keeps the shape of the vote volume. *)
Lemma vote_loop_shape (cluster : list annotation) (o s : vec3 Q) (sh : vec3 Z)
  (z_min z_max y_min x_min : Z) (v v' : ndarray Q) :
  foldM (fun v ann =>
           m <- ann_mask polygon ann o s sh z_min z_max y_min x_min ;;
           Returned (np_add_mask v m))
        cluster v = Returned v' ->
  shape v' = shape v.
Proof.
  apply (foldM_preserves _ (fun w => shape w = shape v)); [| reflexivity].
  intros w ann w' _ Hw E.
  step_bind E m Em. injection E as <-. exact Hw.
Qed.

(** What a returned vote accumulation went through. *)
Lemma aligned_votes_inv (cluster : list annotation) (o s : vec3 Q) (ct : vec3 Z)
  (v : ndarray Q) (b : vec3 slice) :
  aligned_votes polygon cluster o s ct = Returned (Some (v, b)) ->
  exists z_min z_max y_min y_max x_min x_max v0,
    all_contour_data cluster o s ct <> [] /\
    py_min (map fst (all_contour_data cluster o s ct)) = Returned z_min /\
    py_max (map fst (all_contour_data cluster o s ct)) = Returned z_max /\
    plane_bounds
      (flat_map (fun d => fst (snd d)) (all_contour_data cluster o s ct))
      (flat_map (fun d => snd (snd d)) (all_contour_data cluster o s ct))
      ct = Returned (y_min, y_max, (x_min, x_max)) /\
    np_zeros 0%Q (mk3 (z_max - z_min + 1) (y_max - y_min) (x_max - x_min)) = Returned v0 /\
    foldM (fun v ann =>
             m <- ann_mask polygon ann o s
                    (mk3 (z_max - z_min + 1) (y_max - y_min) (x_max - x_min))
                    z_min z_max y_min x_min ;;
             Returned (np_add_mask v m))
          cluster v0 = Returned v /\
    b = mk3 (mk_slice z_min (z_max + 1)) (mk_slice y_min y_max) (mk_slice x_min x_max).
Proof.
  unfold aligned_votes. intros H.
  destruct (is_empty (all_contour_data cluster o s ct)) eqn:Ed; [discriminate H |].
  step_bind H z_min Ezmin. step_bind H z_max Ezmax. step_bind H yx Eyx.
  destruct yx as [[y_min y_max] [x_min x_max]].
  step_bind H v0 Ev0. step_bind H v1 Ev1.
  injection H as -> <-.
  exists z_min, z_max, y_min, y_max, x_min, x_max, v0.
  repeat split; try assumption.
  intros E. apply is_empty_true_iff in E. congruence.
Qed.

Lemma aligned_consensus_body_inv (cluster : list annotation) (o s : vec3 Q)
  (ct : vec3 Z) (t : Q) (m : ndarray bool) (b : vec3 slice) :
  aligned_consensus_body polygon cluster o s ct t = Returned (Some (m, b)) ->
  exists v,
    aligned_votes polygon cluster o s ct = Returned (Some (v, b)) /\
    m = np_ge (np_divide v (len cluster)) t.
Proof.
  unfold aligned_consensus_body. intros H.
  step_bind H r Er. destruct r as [[v b'] |]; [| discriminate H].
  injection H as <- <-. exists v. split; reflexivity.
Qed.

End AlignedSteps.

(** ** Shapes of the returned masks *)

Section Shapes.

Variable polygon : list Z -> list Z -> Z * Z -> list (Z * Z).

Lemma add_at_shape (v v' : ndarray Q) (offs : vec3 Z) (m : ndarray bool) :
  add_at v offs m = Returned v' -> shape v' = shape v.
Proof.
  unfold add_at.
  match goal with |- (if ?c then _ else _) = _ -> _ => destruct c end;
    [| discriminate].
  intros E. injection E as <-. reflexivity.
Qed.

Lemma extents_of_box (z0 z1 y0 y1 x0 x1 : Z) :
  extents (mk3 (mk_slice z0 (z1 + 1)) (mk_slice y0 y1) (mk_slice x0 x1)) =
  mk3 (z1 - z0 + 1) (y1 - y0) (x1 - x0).
Proof. unfold extents, map3; simpl. f_equal; lia. Qed.

Lemma aligned_mask_body_shape (ann : annotation) (o s : vec3 Q) (ct : vec3 Z)
  (m : ndarray bool) (b : vec3 slice) :
  aligned_mask_body polygon ann o s ct = Returned (Some (m, b)) ->
  shape m = extents b.
Proof.
  intros H. apply aligned_mask_body_inv in H.
  destruct H as (z_min & z_max & y_min & y_max & x_min & x_max & m0 &
                 _ & _ & _ & _ & _ & Em0 & Eloop & ->).
  apply np_zeros_inv in Em0. destruct Em0 as [-> _].
  rewrite extents_of_box.
  revert Eloop.
  apply (foldM_preserves _ (fun w => shape w = mk3 (z_max - z_min + 1) (y_max - y_min) (x_max - x_min)));
    [| reflexivity].
  intros w cz w' _ Hw E. apply rasterize_shape in E. congruence.
Qed.

Lemma aligned_votes_shape (cluster : list annotation) (o s : vec3 Q) (ct : vec3 Z)
  (v : ndarray Q) (b : vec3 slice) :
  aligned_votes polygon cluster o s ct = Returned (Some (v, b)) ->
  shape v = extents b.
Proof.
  intros H. apply aligned_votes_inv in H.
  destruct H as (z_min & z_max & y_min & y_max & x_min & x_max & v0 &
                 _ & _ & _ & _ & Ev0 & Eloop & ->).
  apply np_zeros_inv in Ev0. destruct Ev0 as [-> _].
  rewrite extents_of_box.
  apply vote_loop_shape in Eloop. exact Eloop.
Qed.

Lemma aligned_consensus_body_shape (cluster : list annotation) (o s : vec3 Q)
  (ct : vec3 Z) (t : Q) (m : ndarray bool) (b : vec3 slice) :
  aligned_consensus_body polygon cluster o s ct t = Returned (Some (m, b)) ->
  shape m = extents b.
Proof.
  intros H. apply aligned_consensus_body_inv in H. destruct H as (v & Hv & ->).
  apply aligned_votes_shape in Hv. exact Hv.
Qed.

Lemma consensus_body_shape (cluster : list annotation) (t : Q)
  (m : ndarray bool) (b : vec3 slice) :
  consensus_body cluster t = Returned (Some (m, b)) -> shape m = extents b.
Proof.
  unfold consensus_body. intros H.
  destruct (is_empty (map (fun ann => (boolean_mask ann, bbox ann)) cluster));
    [discriminate H |].
  step_bind H mins Emin. step_bind H maxs Emax. step_bind H v Ev.
  injection H as <- <-.
  unfold accumulate_votes in Ev. step_bind Ev v0 Ev0.
  apply np_zeros_inv in Ev0. destruct Ev0 as [-> _].
  assert (Hs : shape v = zip3 Z.sub maxs mins).
  { revert Ev. apply (foldM_preserves _ (fun w => shape w = zip3 Z.sub maxs mins));
      [| reflexivity].
    intros w mb w' _ Hw E. apply add_at_shape in E. congruence. }
  simpl. rewrite Hs. reflexivity.
Qed.

End Shapes.

(** C8.  Every (mask, bbox) pair returned by a reconstruction
    ([get_aligned_mask], [get_consensus_mask], [get_aligned_consensus_mask],
    [get_aligned_mask_for_cluster]) has, on each of the three axes, a mask
    extent equal to the bbox's stop minus its start. *)
Theorem returned_mask_shape_is_bbox_extents
  (polygon : list Z -> list Z -> Z * Z -> list (Z * Z)) (db : list scan)
  (uid : string) (idx : Z) (cluster : list annotation)
  (o s : vec3 Q) (ct : vec3 Z) (t : Q)
  (r : outcome mask_result) (m : ndarray bool) (b : vec3 slice) :
  In r [ get_aligned_mask polygon db uid idx o s ct;
         get_consensus_mask db uid idx t;
         get_aligned_consensus_mask polygon db uid idx o s ct t;
         Returned (get_aligned_mask_for_cluster polygon cluster o s ct t) ] ->
  r = Returned (Some (m, b)) ->
  forall a, get a (shape m) = stop (get a b) - start (get a b).
Proof.
  intros Hin Hr a.
  assert (Hs : shape m = extents b).
  { destruct Hin as [<- | [<- | [<- | [<- | []]]]].
    - apply get_aligned_mask_inv in Hr. destruct Hr as (sc & ann & _ & _ & Hb).
      exact (aligned_mask_body_shape polygon ann o s ct m b Hb).
    - apply get_consensus_mask_inv in Hr. destruct Hr as (sc & cl & _ & _ & Hb).
      exact (consensus_body_shape cl t m b Hb).
    - apply get_aligned_consensus_mask_inv in Hr. destruct Hr as (sc & cl & _ & _ & Hb).
      exact (aligned_consensus_body_shape polygon cl o s ct t m b Hb).
    - injection Hr as Hr. apply get_aligned_mask_for_cluster_inv in Hr.
      exact (aligned_consensus_body_shape polygon cluster o s ct t m b Hr). }
  rewrite Hs. unfold extents. rewrite get_map3. reflexivity.
Qed.

Lemma returned_mask_shape_is_bbox_extents_witness :
  exists m b,
    get_aligned_mask even_odd_polygon db1 "1.3.6.1" 0 origin0 spacing1 ct10
      = Returned (Some (m, b)) /\
    get Yax (shape m) = 5 /\ stop (get Yax b) - start (get Yax b) = 5.
Proof.
  assert (E : exists m b,
             get_aligned_mask even_odd_polygon db1 "1.3.6.1" 0 origin0 spacing1 ct10
               = Returned (Some (m, b)) /\ b = box 2 3 0 5 0 5).
  { eexists. eexists. split; [vm_compute; reflexivity | reflexivity]. }
  destruct E as (m & b & E & Eb). exists m, b. split; [exact E |].
  pose proof (returned_mask_shape_is_bbox_extents even_odd_polygon db1 "1.3.6.1" 0 []
                origin0 spacing1 ct10 (1 # 2)%Q _ m b (or_introl eq_refl) E Yax) as H.
  subst b. split; [exact H | reflexivity].
Defined.

(** ** Guards before the normalisation *)

Section Guards.

Variable polygon : list Z -> list Z -> Z * Z -> list (Z * Z).

Lemma no_contour_no_data (cluster : list annotation) (o s : vec3 Q) (ct : vec3 Z) :
  no_contour_in_range cluster o s ct -> all_contour_data cluster o s ct = [].
Proof.
  unfold no_contour_in_range, all_contour_data. intros H.
  induction cluster as [| ann cluster IH]; [reflexivity |].
  cbn [flat_map]. rewrite IH by (intros a c Ha; apply H; now right).
  rewrite app_nil_r.
  assert (Hann : forall c, In c (contours ann) ->
            z_index (image_z_position c) o s < 0 \/
            ax0 ct <= z_index (image_z_position c) o s)
    by (intros c; apply H; now left).
  clear H IH. induction (contours ann) as [| c cs IHc]; [reflexivity |].
  cbn [flat_map]. rewrite IHc by (intros c' Hc'; apply Hann; now right).
  destruct (Hann c (or_introl eq_refl)) as [Hlo | Hhi].
  - destruct (Z.leb_spec 0 (z_index (image_z_position c) o s)); [lia | reflexivity].
  - destruct (Z.ltb_spec (z_index (image_z_position c) o s) (ax0 ct)); [lia |].
    rewrite andb_false_r. reflexivity.
Qed.

Lemma no_data_returns_None (cluster : list annotation) (o s : vec3 Q) (ct : vec3 Z) (t : Q) :
  all_contour_data cluster o s ct = [] ->
  aligned_votes polygon cluster o s ct = Returned None /\
  aligned_consensus_body polygon cluster o s ct t = Returned None.
Proof.
  intros E. unfold aligned_consensus_body, aligned_votes. rewrite E. simpl. auto.
Qed.

Lemma data_needs_annotation (cluster : list annotation) (o s : vec3 Q) (ct : vec3 Z) :
  all_contour_data cluster o s ct <> [] -> 0 < len cluster.
Proof.
  destruct cluster as [| ann cluster]; [simpl; congruence |].
  intros _. unfold len. simpl List.length. lia.
Qed.

End Guards.

(** C10.  In [get_aligned_mask_for_cluster] and [get_aligned_consensus_mask]
    the division by [len(cluster)] is never a division by zero: when the
    cluster is empty, or no contour of any annotation maps into the
    volume's slice range, the division is not reached and both calls
    return [None]; whenever it is reached, the divisor is the cluster's
    length and is positive. *)
Theorem consensus_division_never_by_zero
  (polygon : list Z -> list Z -> Z * Z -> list (Z * Z)) (db : list scan)
  (uid : string) (idx : Z) (sc : scan) (cluster : list annotation)
  (o s : vec3 Q) (ct : vec3 Z) (t : Q) :
  get_scan_by_seriesuid db uid = Some sc ->
  idx < len (cluster_annotations sc) ->
  py_getitem (cluster_annotations sc) idx = Returned cluster ->
  (cluster = [] \/ no_contour_in_range cluster o s ct ->
     normalization_divisor polygon cluster o s ct = None /\
     get_aligned_mask_for_cluster polygon cluster o s ct t = None /\
     get_aligned_consensus_mask polygon db uid idx o s ct t = Returned None) /\
  (forall n, normalization_divisor polygon cluster o s ct = Some n ->
     n = len cluster /\ 0 < n).
Proof.
  intros Hsc Hidx Hget. split.
  - intros Hcase.
    assert (Hdata : all_contour_data cluster o s ct = []).
    { destruct Hcase as [-> | Hno]; [reflexivity | now apply no_contour_no_data]. }
    destruct (no_data_returns_None polygon cluster o s ct t Hdata) as [Hv Hb].
    split; [| split].
    + unfold normalization_divisor. rewrite Hv. reflexivity.
    + unfold get_aligned_mask_for_cluster. rewrite Hb.
      destruct (is_empty cluster); reflexivity.
    + rewrite (get_aligned_consensus_mask_selects polygon db uid idx o s ct t sc cluster
                 Hsc Hidx Hget), Hb. reflexivity.
  - intros n Hn. unfold normalization_divisor in Hn.
    destruct (aligned_votes polygon cluster o s ct) as [[[v b] |] | e] eqn:Ev;
      try discriminate Hn.
    injection Hn as <-. split; [reflexivity |].
    apply aligned_votes_inv in Ev.
    destruct Ev as (? & ? & ? & ? & ? & ? & ? & Hdata & _).
    exact (data_needs_annotation cluster o s ct Hdata).
Qed.

Lemma consensus_division_never_by_zero_witness :
  normalization_divisor even_odd_polygon [ann_in; ann_out] origin0 spacing1 ct10 = Some 2 /\
  2 = len [ann_in; ann_out] /\ 0 < 2.
Proof.
  destruct (consensus_division_never_by_zero even_odd_polygon db1 "1.3.6.1" 0 scan_a
              [ann_in; ann_out] origin0 spacing1 ct10 (1 # 2)%Q
              eq_refl eq_refl eq_refl) as [_ H].
  split; [reflexivity |].
  apply (H 2). reflexivity.
Defined.




(** ** Vote accumulation in the aligned frame *)

Section AlignedVotes.

Variable polygon : list Z -> list Z -> Z * Z -> list (Z * Z).

Local Open Scope Q_scope.

(** Each annotation adds one to a voxel exactly when its own mask marks the
    voxel, however many of its contours do. *)
Lemma aligned_vote_loop (cluster : list annotation) (o s : vec3 Q) (sh : vec3 Z)
  (z_min z_max y_min x_min : Z) :
  forall v v' : ndarray Q,
  foldM (fun v ann =>
           m <- ann_mask polygon ann o s sh z_min z_max y_min x_min ;;
           Returned (np_add_mask v m))
        cluster v = Returned v' ->
  forall i j k,
    cell v' i j k ==
    cell v i j k +
    inject_Z (count_true
                (fun ann =>
                   match ann_mask polygon ann o s sh z_min z_max y_min x_min with
                   | Returned m => cell m i j k
                   | Raised _ => false
                   end)
                cluster).
Proof.
  induction cluster as [| ann cluster IH]; intros v v' H i j k.
  - injection H as <-. unfold count_true, len; simpl.
    change (inject_Z 0) with 0. lra.
  - cbn [foldM] in H. step_bind H v1 E1.
    step_bind E1 m Em. injection E1 as <-.
    rewrite (IH _ _ H i j k). cbn [np_add_mask cell].
    rewrite count_true_cons, Em, inject_Z_plus, b2q_inject. ring.
Qed.

Lemma marks_in_frame (ann : annotation) (o s : vec3 Q)
  (z_min z_max y_min y_max x_min x_max i j k : Z) :
  marks polygon ann o s
        (mk3 (mk_slice z_min (z_max + 1)) (mk_slice y_min y_max) (mk_slice x_min x_max))
        i j k =
  match ann_mask polygon ann o s
                 (mk3 (z_max - z_min + 1) (y_max - y_min) (x_max - x_min))%Z
                 z_min z_max y_min x_min with
  | Returned m => cell m i j k
  | Raised _ => false
  end.
Proof.
  unfold marks. rewrite extents_of_box. simpl. rewrite Z.add_simpl_r. reflexivity.
Qed.

(** The consensus mask of the aligned reconstructions, voxel by voxel. *)
Lemma aligned_consensus_body_cells (cluster : list annotation) (o s : vec3 Q)
  (ct : vec3 Z) (t : Q) (m : ndarray bool) (b : vec3 slice) :
  aligned_consensus_body polygon cluster o s ct t = Returned (Some (m, b)) ->
  forall i j k,
    cell m i j k =
    Qle_bool t (inject_Z (count_true (fun ann => marks polygon ann o s b i j k) cluster)
                / inject_Z (len cluster)).
Proof.
  intros H i j k.
  apply aligned_consensus_body_inv in H. destruct H as (v & Hv & ->).
  apply aligned_votes_inv in Hv.
  destruct Hv as (z_min & z_max & y_min & y_max & x_min & x_max & v0 &
                  _ & _ & _ & _ & Ev0 & Eloop & ->).
  apply np_zeros_inv in Ev0. destruct Ev0 as [-> _].
  pose proof (aligned_vote_loop _ _ _ _ _ _ _ _ _ _ Eloop i j k) as Hc.
  cbn [np_ge np_divide cell]. rewrite Hc. cbn [cell].
  rewrite Qplus_0_l.
  assert (Hcount :
    count_true (fun ann =>
                  match ann_mask polygon ann o s
                          (mk3 (z_max - z_min + 1) (y_max - y_min) (x_max - x_min))%Z
                          z_min z_max y_min x_min with
                  | Returned m => cell m i j k
                  | Raised _ => false
                  end) cluster =
    count_true (fun ann => marks polygon ann o s
                  (mk3 (mk_slice z_min (z_max + 1)) (mk_slice y_min y_max)
                       (mk_slice x_min x_max)) i j k) cluster).
  { unfold count_true. f_equal. apply filter_ext. intros ann.
    symmetry. apply marks_in_frame. }
  rewrite Hcount. reflexivity.
Qed.

End AlignedVotes.

(** C1 (counterexample).  In the cluster of [ann_in] and [ann_out] the
    second annotation has no contour inside the volume: alone it yields no
    mask ([get_aligned_mask] returns [None]) and it marks no voxel.  It is
    still counted in the divisor: the voxel (0,1,1) that [ann_in] marks
    gets the vote 1/2, so at threshold 3/4 it is left out, whereas dividing
    by the one contributing annotation (the cluster of [ann_in] alone)
    keeps it. *)
Lemma divisor_counts_unusable_annotation_counterexample :
  get_aligned_mask even_odd_polygon db1 "1.3.6.1" 1 origin0 spacing1 ct10 = Returned None /\
  marks even_odd_polygon ann_out origin0 spacing1 (box 2 3 0 5 0 5) 0 1 1 = false /\
  marks even_odd_polygon ann_in origin0 spacing1 (box 2 3 0 5 0 5) 0 1 1 = true /\
  voxel_of (get_aligned_mask_for_cluster even_odd_polygon [ann_in; ann_out]
              origin0 spacing1 ct10 (3 # 4)%Q) 0 1 1 = Some false /\
  result_box (get_aligned_consensus_mask even_odd_polygon db1 "1.3.6.1" 0
                origin0 spacing1 ct10 (3 # 4)%Q) = Returned (Some (box 2 3 0 5 0 5)) /\
  voxel_of (get_aligned_mask_for_cluster even_odd_polygon [ann_in]
              origin0 spacing1 ct10 (3 # 4)%Q) 0 1 1 = Some true.
Proof. repeat split; vm_compute; reflexivity. Qed.

(** C1 (amended).  For every cluster reconstructed into a consensus mask,
    the vote at a voxel is the number of annotations of the cluster that
    mark the voxel (each annotation counting once, whatever the number of
    its slices and contours) divided by the number of annotations in the
    cluster, [len(cluster)]: annotations that mark nothing are counted in
    the divisor too.  First part: the aligned reconstructions; second
    part: [get_consensus_mask] on native masks as large as their boxes. *)
Theorem votes_counted_per_annotation :
  (forall (polygon : list Z -> list Z -> Z * Z -> list (Z * Z)) (db : list scan)
          (uid : string) (idx : Z) (sc : scan) (cluster : list annotation)
          (o s : vec3 Q) (ct : vec3 Z) (t : Q)
          (r : outcome mask_result) (m : ndarray bool) (b : vec3 slice),
     get_scan_by_seriesuid db uid = Some sc ->
     py_getitem (cluster_annotations sc) idx = Returned cluster ->
     In r [ get_aligned_consensus_mask polygon db uid idx o s ct t;
            Returned (get_aligned_mask_for_cluster polygon cluster o s ct t) ] ->
     r = Returned (Some (m, b)) ->
     forall i j k,
       cell m i j k =
       Qle_bool t (inject_Z (count_true (fun ann => marks polygon ann o s b i j k) cluster)
                   / inject_Z (len cluster))) /\
  (forall (db : list scan) (uid : string) (idx : Z) (sc : scan)
          (cluster : list annotation) (t : Q),
     get_scan_by_seriesuid db uid = Some sc ->
     idx < len (cluster_annotations sc) ->
     py_getitem (cluster_annotations sc) idx = Returned cluster ->
     cluster <> [] ->
     (forall ann, In ann cluster ->
        well_formed (boolean_mask ann) /\ shape (boolean_mask ann) = extents (bbox ann)) ->
     exists mins maxs m,
       min_starts (map (fun ann => (boolean_mask ann, bbox ann)) cluster) = Returned mins /\
       get_consensus_mask db uid idx t = Returned (Some (m, zip3 mk_slice mins maxs)) /\
       forall i j k,
         cell m i j k =
         Qle_bool t
           (inject_Z (count_true
                        (fun ann => placed (boolean_mask ann) (offsets (bbox ann) mins) i j k)
                        cluster)
            / inject_Z (len cluster))).
Proof.
  split.
  - intros polygon db uid idx sc cluster o s ct t r m b Hsc Hget Hin Hr.
    apply (aligned_consensus_body_cells polygon cluster o s ct t m b).
    destruct Hin as [<- | [<- | []]].
    + apply get_aligned_consensus_mask_inv in Hr.
      destruct Hr as (sc' & cl & Hsc' & Hget' & Hb).
      rewrite Hsc in Hsc'. injection Hsc' as <-.
      rewrite Hget in Hget'. injection Hget' as <-. exact Hb.
    + injection Hr as Hr. now apply get_aligned_mask_for_cluster_inv.
  - intros db uid idx sc cluster t Hsc Hidx Hget Hne Hsh.
    destruct (consensus_body_returns cluster t Hne Hsh)
      as (mins & maxs & m & Emin & _ & Eb & _ & Hc).
    exists mins, maxs, m. split; [exact Emin |]. split; [| exact Hc].
    rewrite (get_consensus_mask_selects db uid idx t sc cluster Hsc Hidx Hget), Eb.
    reflexivity.
Qed.

Lemma votes_counted_per_annotation_witness :
  exists m,
    get_aligned_mask_for_cluster even_odd_polygon [ann_three; ann_out]
      origin0 spacing1 ct10 (1 # 2)%Q = Some (m, box 2 4 0 5 0 5) /\
    count_true (fun ann => marks even_odd_polygon ann origin0 spacing1 (box 2 4 0 5 0 5) 0 1 1)
               [ann_three; ann_out] = 1 /\
    cell m 0 1 1 = true.
Proof.
  assert (E : exists m,
             get_aligned_mask_for_cluster even_odd_polygon [ann_three; ann_out]
               origin0 spacing1 ct10 (1 # 2)%Q = Some (m, box 2 4 0 5 0 5)).
  { eexists. vm_compute. reflexivity. }
  destruct E as (m & E). exists m. split; [exact E |]. split; [reflexivity |].
  destruct votes_counted_per_annotation as [H _].
  rewrite (H even_odd_polygon
             [scan_c] "1.3.6.3"%string 0 scan_c [ann_three; ann_out]
             origin0 spacing1 ct10 (1 # 2)%Q
             (Returned (get_aligned_mask_for_cluster even_odd_polygon [ann_three; ann_out]
                          origin0 spacing1 ct10 (1 # 2)%Q))
             m (box 2 4 0 5 0 5) eq_refl eq_refl
             (or_intror (or_introl eq_refl)) (f_equal Returned E) 0 1 1).
  reflexivity.
Defined.

(** ** The threshold *)

Section Threshold.

Variable polygon : list Z -> list Z -> Z * Z -> list (Z * Z).

Local Open Scope Q_scope.












End Threshold.

Section ThresholdCases.

Variable polygon : list Z -> list Z -> Z * Z -> list (Z * Z).

Local Open Scope Q_scope.



End ThresholdCases.




(** ** Rasterising the kept contours *)

Section Rasterisation.

Variable polygon : list Z -> list Z -> Z * Z -> list (Z * Z).
Hypothesis polygon_clips : polygon_in_shape polygon.

Lemma norm_index_in_range (n i : Z) : 0 <= i < n -> norm_index n i = Some i.
Proof.
  intros H. unfold norm_index.
  destruct (Z.leb_spec 0 i); [| lia]. destruct (Z.ltb_spec i n); [| lia]. reflexivity.
Qed.

Lemma norm_pixels_in_shape (sh : vec3 Z) (ps : list (Z * Z)) :
  (forall p, In p ps -> 0 <= fst p < ax1 sh /\ 0 <= snd p < ax2 sh) ->
  norm_pixels sh ps = Some ps.
Proof.
  induction ps as [| [r c] ps IH]; intros H; [reflexivity |].
  cbn [norm_pixels]. rewrite IH by (intros p Hp; apply H; now right).
  destruct (H (r, c) (or_introl eq_refl)) as [Hr Hc]. simpl in Hr, Hc.
  unfold norm_pixel. cbn [fst snd].
  rewrite (norm_index_in_range _ _ Hr), (norm_index_in_range _ _ Hc). reflexivity.
Qed.

(** One contour is filled without error; the mask gains the polygon's
    pixels on the contour's slice. *)
Lemma rasterize_returns (m : ndarray bool) (z_min y_min x_min : Z) (c : contour) (z : Z) :
  0 <= z - z_min < ax0 (shape m) ->
  exists m',
    rasterize polygon m z_min y_min x_min c z = Returned m' /\
    shape m' = shape m /\
    forall i j k,
      cell m' i j k =
      ((i =? z - z_min) &&
       has_pixel (polygon (map (fun p => fst p - y_min) (to_matrix c))
                          (map (fun p => snd p - x_min) (to_matrix c))
                          (ax1 (shape m), ax2 (shape m))) j k)
      || cell m i j k.
Proof.
  intros Hz. unfold rasterize.
  destruct (Z.leb_spec 0 (z - z_min)); [| lia].
  destruct (Z.ltb_spec (z - z_min) (ax0 (shape m))); [| lia].
  cbn [andb]. unfold set_true_at.
  rewrite norm_pixels_in_shape.
  - eexists. split; [reflexivity |]. split; reflexivity.
  - intros p Hp. apply polygon_clips in Hp. exact Hp.
Qed.

(** The loop over the kept contours returns the union of their fills. *)
Lemma rasterize_loop (z_min y_min x_min : Z) (sh : vec3 Z) (l : list (contour * Z)) :
  (forall cz, In cz l -> 0 <= snd cz - z_min < ax0 sh) ->
  forall m, shape m = sh ->
  exists m',
    foldM (fun m cz => rasterize polygon m z_min y_min x_min (fst cz) (snd cz)) l m
      = Returned m' /\
    shape m' = sh /\
    forall i j k,
      cell m' i j k =
      existsb (fun cz =>
                 (i =? snd cz - z_min) &&
                 has_pixel (polygon (map (fun p => fst p - y_min) (to_matrix (fst cz)))
                                    (map (fun p => snd p - x_min) (to_matrix (fst cz)))
                                    (ax1 sh, ax2 sh)) j k) l
      || cell m i j k.
Proof.
  induction l as [| cz l IH]; intros Hz m Hm.
  - exists m. split; [reflexivity |]. split; [exact Hm | reflexivity].
  - destruct (rasterize_returns m z_min y_min x_min (fst cz) (snd cz)) as (m1 & E1 & S1 & C1).
    { rewrite Hm. apply Hz. now left. }
    destruct (IH (fun cz' H' => Hz cz' (or_intror H')) m1) as (m' & E' & S' & C').
    { congruence. }
    exists m'. cbn [foldM]. rewrite E1. cbn [bind].
    split; [exact E' |]. split; [exact S' |].
    intros i j k. rewrite C', C1, Hm. cbn [existsb].
    rewrite orb_assoc. f_equal. apply orb_comm.
Qed.

Lemma kept_slices_in_range (valid : list (contour * Z)) (z_min z_max : Z) :
  py_min (map snd valid) = Returned z_min ->
  py_max (map snd valid) = Returned z_max ->
  z_min <= z_max /\
  forall cz, In cz valid -> 0 <= snd cz - z_min < z_max - z_min + 1.
Proof.
  intros Emin Emax.
  apply py_min_Returned in Emin. destruct Emin as [Imin Hmin].
  apply py_max_Returned in Emax. destruct Emax as [Imax Hmax].
  split; [auto |].
  intros cz Hin.
  assert (In (snd cz) (map snd valid)) by now apply in_map.
  specialize (Hmin _ H). specialize (Hmax _ H). lia.
Qed.

(** With a contour kept and a usable in-plane box, the body returns a mask. *)
Lemma aligned_mask_body_succeeds (ann : annotation) (o s : vec3 Q) (ct : vec3 Z) :
  contours ann <> [] ->
  valid_contours (contours ann) o s ct <> [] ->
  plane_extent_ok (valid_contours (contours ann) o s ct) ct = true ->
  exists m b, aligned_mask_body polygon ann o s ct = Returned (Some (m, b)).
Proof.
  intros Hc Hv Hp. unfold aligned_mask_body.
  rewrite (is_empty_false _ Hc), (is_empty_false _ Hv).
  set (valid := valid_contours (contours ann) o s ct) in *.
  assert (Hz : map snd valid <> []).
  { intros E. apply map_eq_nil in E. contradiction. }
  destruct (py_min_spec _ Hz) as (z_min & Emin & _).
  destruct (py_max_spec _ Hz) as (z_max & Emax & _).
  destruct (kept_slices_in_range valid z_min z_max Emin Emax) as [Hle Hin].
  rewrite Emin, Emax. cbn [bind].
  unfold plane_extent_ok in Hp.
  destruct (plane_bounds _ _ ct) as [[[y_min y_max] [x_min x_max]] | e];
    [| discriminate Hp].
  apply andb_true_iff in Hp. destruct Hp as [Hy Hx].
  apply Z.leb_le in Hy, Hx.
  cbn [bind]. unfold np_zeros. cbn [ax0 ax1 ax2].
  destruct (Z.leb_spec 0 (z_max - z_min + 1)); [| lia].
  destruct (Z.leb_spec 0 (y_max - y_min)); [| lia].
  destruct (Z.leb_spec 0 (x_max - x_min)); [| lia].
  cbn [andb bind].
  destruct (rasterize_loop z_min y_min x_min
              (mk3 (z_max - z_min + 1) (y_max - y_min) (x_max - x_min)) valid Hin
              (mk_array (mk3 (z_max - z_min + 1) (y_max - y_min) (x_max - x_min))
                        (fun _ _ _ => false)) eq_refl) as (m' & E' & _).
  rewrite E'. cbn [bind]. eauto.
Qed.

(** Without a contour, without a kept contour, or without a usable in-plane
    box, the body yields [None] (by an early return or a caught error). *)
Lemma aligned_mask_body_fails (ann : annotation) (o s : vec3 Q) (ct : vec3 Z) :
  contours ann = [] \/
  valid_contours (contours ann) o s ct = [] \/
  plane_extent_ok (valid_contours (contours ann) o s ct) ct = false ->
  try_except_None (aligned_mask_body polygon ann o s ct) = None.
Proof.
  intros H. unfold aligned_mask_body.
  destruct (is_empty (contours ann)) eqn:Ec; [reflexivity |].
  destruct (is_empty (valid_contours (contours ann) o s ct)) eqn:Ev; [reflexivity |].
  destruct H as [H | [H | H]].
  - rewrite H in Ec. discriminate Ec.
  - rewrite H in Ev. discriminate Ev.
  - destruct (py_min _) as [z_min | e]; [| reflexivity].
    destruct (py_max _) as [z_max | e]; [| reflexivity].
    cbn [bind]. unfold plane_extent_ok in H.
    destruct (plane_bounds _ _ ct) as [[[y_min y_max] [x_min x_max]] | e];
      [| reflexivity].
    cbn [bind]. unfold np_zeros. cbn [ax0 ax1 ax2].
    assert (E : (0 <=? y_max - y_min) && (0 <=? x_max - x_min) = false).
    { apply andb_false_iff in H. apply andb_false_iff.
      destruct H as [H | H]; [left | right];
        apply Z.leb_gt in H; apply Z.leb_gt; lia. }
    rewrite <- andb_assoc, E, andb_false_r. reflexivity.
Qed.

(** The cells of a returned mask: the union of the kept contours' fills. *)
Lemma aligned_mask_body_cells (ann : annotation) (o s : vec3 Q) (ct : vec3 Z)
  (m : ndarray bool) (b : vec3 slice) :
  aligned_mask_body polygon ann o s ct = Returned (Some (m, b)) ->
  forall i j k,
    cell m i j k =
    existsb (fun cz => (i =? snd cz - start (ax0 b)) &&
                       has_pixel (contour_pixels polygon (fst cz) b (shape m)) j k)
            (valid_contours (contours ann) o s ct).
Proof.
  intros H i j k. apply aligned_mask_body_inv in H.
  destruct H as (z_min & z_max & y_min & y_max & x_min & x_max & m0 &
                 _ & _ & Emin & Emax & _ & Em0 & Eloop & ->).
  apply np_zeros_inv in Em0. destruct Em0 as [-> _].
  destruct (kept_slices_in_range _ z_min z_max Emin Emax) as [_ Hin].
  destruct (rasterize_loop z_min y_min x_min
              (mk3 (z_max - z_min + 1) (y_max - y_min) (x_max - x_min)) _ Hin
              (mk_array (mk3 (z_max - z_min + 1) (y_max - y_min) (x_max - x_min))
                        (fun _ _ _ => false)) eq_refl) as (m' & E' & S' & C').
  rewrite Eloop in E'. injection E' as <-.
  rewrite C'. cbn [cell]. rewrite orb_false_r.
  unfold contour_pixels. rewrite S'. reflexivity.
Qed.

End Rasterisation.

Lemma zrange_bounds (n x : Z) : In x (zrange n) -> 0 <= x < n.
Proof.
  unfold zrange. intros H. apply in_map_iff in H. destruct H as (k & <- & Hk).
  apply in_seq in Hk. lia.
Qed.

Lemma even_odd_polygon_in_shape : polygon_in_shape even_odd_polygon.
Proof.
  intros r c sh p Hp. unfold even_odd_polygon in Hp.
  apply filter_In in Hp. destruct Hp as [Hp _].
  destruct p as [pr pc]. apply in_prod_iff in Hp. destruct Hp as [Hr Hc].
  split; apply zrange_bounds; assumption.
Qed.

Lemma valid_contours_spec (cs : list contour) (o s : vec3 Q) (ct : vec3 Z)
  (c : contour) (z : Z) :
  In (c, z) (valid_contours cs o s ct) <->
  In c cs /\ z = z_index (image_z_position c) o s /\ 0 <= z < ax0 ct.
Proof.
  unfold valid_contours. rewrite filter_In, in_map_iff. cbn [snd]. split.
  - intros [(c' & E & Hin) Hz]. injection E as -> <-.
    apply andb_true_iff in Hz. destruct Hz as [H0 H1].
    apply Z.leb_le in H0. apply Z.ltb_lt in H1. auto.
  - intros (Hin & -> & H0 & H1). split; [eauto |].
    apply andb_true_iff. split; [now apply Z.leb_le | now apply Z.ltb_lt].
Qed.

Lemma nil_or_not {A} (l : list A) : l = [] \/ l <> [].
Proof. destruct l; [now left | right; discriminate]. Qed.

(** C7 (counterexample).  The only contour of [ann_far] maps to slice 2 of
    the ten-slice volume, so it is kept, but it lies in plane beyond the
    8 x 8 slices: the clipped box has a negative extent, allocating the
    mask fails, and [get_aligned_mask] returns [None] although the
    annotation has a contour and none was dropped. *)
Lemma kept_contour_yet_no_mask_counterexample :
  List.length (contours ann_far) = 1%nat /\
  map snd (valid_contours (contours ann_far) origin0 spacing1 ct10) = [2] /\
  aligned_mask_body even_odd_polygon ann_far origin0 spacing1 ct10 = Raised ValueError /\
  get_aligned_mask even_odd_polygon [scan_far] "1.3.6.4" 0 origin0 spacing1 ct10
    = Returned None.
Proof. repeat split; vm_compute; reflexivity. Qed.

(** C7 (amended).  When [get_aligned_mask] reconstructs an existing
    annotation in a target frame of positive slice spacing (the rasteriser
    returning pixels inside the shape it is given), a contour is kept exactly when its z-position
    maps to a slice index in [0, ct_shape[0]) and the others are dropped
    without an error being raised; the call returns [None] if and only if
    the annotation has zero contours, or all of them are dropped, or the
    kept contours have no point or an in-plane box whose clipping to the
    volume has a negative extent; and a returned mask is exactly the union
    of the fills of the kept contours, each on its own slice. *)
Theorem aligned_mask_none_iff
  (polygon : list Z -> list Z -> Z * Z -> list (Z * Z)) (db : list scan)
  (uid : string) (idx : Z) (sc : scan) (ann : annotation)
  (o s : vec3 Q) (ct : vec3 Z) :
  polygon_in_shape polygon ->
  (0 < ax0 s)%Q ->
  get_scan_by_seriesuid db uid = Some sc ->
  idx < len (annotations sc) ->
  py_getitem (annotations sc) idx = Returned ann ->
  (forall c z, In (c, z) (valid_contours (contours ann) o s ct) <->
               In c (contours ann) /\ z = z_index (image_z_position c) o s /\
               0 <= z < ax0 ct) /\
  (exists r, get_aligned_mask polygon db uid idx o s ct = Returned r) /\
  (get_aligned_mask polygon db uid idx o s ct = Returned None <->
     contours ann = [] \/
     valid_contours (contours ann) o s ct = [] \/
     plane_extent_ok (valid_contours (contours ann) o s ct) ct = false) /\
  (forall m b, get_aligned_mask polygon db uid idx o s ct = Returned (Some (m, b)) ->
     forall i j k,
       cell m i j k =
       existsb (fun cz => (i =? snd cz - start (ax0 b)) &&
                          has_pixel (contour_pixels polygon (fst cz) b (shape m)) j k)
               (valid_contours (contours ann) o s ct)).
Proof.
  intros Hpoly _ Hsc Hidx Hget.
  pose proof (get_aligned_mask_selects polygon db uid idx o s ct sc ann Hsc Hidx Hget) as Esel.
  split; [intros c z; apply valid_contours_spec |].
  split; [eauto |].
  split.
  - rewrite Esel. split.
    + intros E.
      destruct (nil_or_not (contours ann)) as [Hc | Hc]; [now left |].
      destruct (nil_or_not (valid_contours (contours ann) o s ct)) as [Hv | Hv];
        [now right; left |].
      destruct (plane_extent_ok (valid_contours (contours ann) o s ct) ct) eqn:Hp;
        [| now right; right].
      exfalso.
      destruct (aligned_mask_body_succeeds polygon Hpoly ann o s ct Hc Hv Hp)
        as (m & b & Eb).
      rewrite Eb in E. discriminate E.
    + intros H. f_equal. now apply aligned_mask_body_fails.
  - intros m b E. rewrite Esel in E.
    apply (aligned_mask_body_cells polygon Hpoly ann o s ct m b).
    destruct (aligned_mask_body polygon ann o s ct) as [[r |] | e];
      simpl in E; first [discriminate E | (injection E as ->; reflexivity)].
Qed.

Lemma aligned_mask_none_iff_witness :
  get_aligned_mask even_odd_polygon db1 "1.3.6.1" 1 origin0 spacing1 ct10 = Returned None /\
  exists m,
    get_aligned_mask even_odd_polygon [scan_c] "1.3.6.3" 0 origin0 spacing1 ct10
      = Returned (Some (m, box 2 4 0 5 0 5)) /\
    cell m 0 1 1 = true /\ cell m 1 3 3 = true.
Proof.
  split.
  - destruct (aligned_mask_none_iff even_odd_polygon db1 "1.3.6.1" 1 scan_a ann_out
                origin0 spacing1 ct10 even_odd_polygon_in_shape eq_refl eq_refl eq_refl eq_refl)
      as (_ & _ & [_ H] & _).
    apply H. right; left. reflexivity.
  - assert (E : exists m,
               get_aligned_mask even_odd_polygon [scan_c] "1.3.6.3" 0 origin0 spacing1 ct10
               = Returned (Some (m, box 2 4 0 5 0 5))).
    { eexists. vm_compute. reflexivity. }
    destruct E as (m & E). exists m. split; [exact E |].
    destruct (aligned_mask_none_iff even_odd_polygon [scan_c] "1.3.6.3" 0 scan_c ann_three
                origin0 spacing1 ct10 even_odd_polygon_in_shape eq_refl eq_refl eq_refl eq_refl)
      as (_ & _ & _ & Hcell).
    assert (Hs : shape m = mk3 2 5 5).
    { pose proof E as E'. vm_compute in E'. injection E' as <-. reflexivity. }
    split; rewrite (Hcell m _ E), Hs; reflexivity.
Defined.

(** ** Further properties of the fusion and of the vote *)

(** Fusion monotonicity (specification, section 8): on each axis the fused
    box of [get_consensus_mask] is at least as long as every input box. *)
Theorem fused_extents_dominate (mbs : list (ndarray bool * vec3 slice))
  (mins maxs : vec3 Z) (mb : ndarray bool * vec3 slice) (a : axis) :
  min_starts mbs = Returned mins -> max_ends mbs = Returned maxs -> In mb mbs ->
  get a (extents (snd mb)) <= get a (zip3 Z.sub maxs mins).
Proof.
  intros Emin Emax Hin.
  assert (Hne : mbs <> []) by (intros ->; destruct Hin).
  destruct (fused_box_is_min_max mbs Hne) as (mins' & maxs' & Emin' & Emax' & _ & Hbox).
  rewrite Emin in Emin'. injection Emin' as <-.
  rewrite Emax in Emax'. injection Emax' as <-.
  destruct (Hbox mb a Hin) as [Hlo Hhi].
  unfold extents. rewrite get_map3, get_zip3. lia.
Qed.

Lemma fused_extents_dominate_witness :
  get Xax (extents (bbox ann_left)) <= get Xax (zip3 Z.sub (mk3 3 4 5) (mk3 0 0 0)).
Proof.
  apply (fused_extents_dominate
           [(boolean_mask ann_left, bbox ann_left); (boolean_mask ann_right, bbox ann_right)]
           (mk3 0 0 0) (mk3 3 4 5) (boolean_mask ann_left, bbox ann_left) Xax);
    [reflexivity | reflexivity | now left].
Defined.

(** Vote normalisation (specification, section 8): at a voxel that every
    annotation of a non-empty cluster marks the vote is N/N = 1, so the
    voxel is in the consensus mask of [get_consensus_mask] at every
    threshold of (0, 1]; in a cluster of three annotations a voxel marked
    by exactly one of them is left out at threshold 1/2 and kept at
    threshold 3/10. *)
Theorem unanimous_and_single_votes (cluster : list annotation) (t : Q)
  (m : ndarray bool) (mins maxs : vec3 Z) (i j k : Z) :
  cluster <> [] ->
  (forall ann, In ann cluster ->
     well_formed (boolean_mask ann) /\ shape (boolean_mask ann) = extents (bbox ann)) ->
  min_starts (map (fun ann => (boolean_mask ann, bbox ann)) cluster) = Returned mins ->
  consensus_body cluster t = Returned (Some (m, zip3 mk_slice mins maxs)) ->
  let marking :=
    count_true (fun ann => placed (boolean_mask ann) (offsets (bbox ann) mins) i j k)
               cluster in
  (marking = len cluster -> (0 < t)%Q /\ (t <= 1)%Q -> cell m i j k = true) /\
  (marking = 1 -> len cluster = 3 ->
     ((t == 1 # 2)%Q -> cell m i j k = false) /\
     ((t == 3 # 10)%Q -> cell m i j k = true)).
Proof.
  intros Hne Hsh Emin Eb marking.
  destruct (consensus_body_returns cluster t Hne Hsh)
    as (mins' & maxs' & m' & Emin' & _ & Eb' & _ & Hc).
  rewrite Emin in Emin'. injection Emin' as <-.
  rewrite Eb in Eb'. injection Eb' as <- _.
  rewrite Hc. fold marking. split.
  - intros -> [Hlo Hhi]. apply Qle_bool_iff.
    assert (Hpos : (0 < inject_Z (len cluster))%Q).
    { change 0%Q with (inject_Z 0). rewrite <- Zlt_Qlt.
      destruct cluster; [congruence | unfold len; simpl List.length; lia]. }
    apply Qle_shift_div_l; [exact Hpos |].
    apply Qle_trans with (1 * inject_Z (len cluster))%Q.
    + apply Qmult_le_compat_r; [exact Hhi | apply Qlt_le_weak, Hpos].
    + rewrite Qmult_1_l. apply Qle_refl.
  - intros -> ->. split; intros ->; reflexivity.
Qed.

Lemma unanimous_and_single_votes_witness :
  exists m,
    consensus_body [ann_left; ann_left; ann_right] (3 # 10)%Q
      = Returned (Some (m, zip3 mk_slice (mk3 0 0 0) (mk3 3 4 5))) /\
    cell m 2 3 4 = true.
Proof.
  assert (E : exists m,
             consensus_body [ann_left; ann_left; ann_right] (3 # 10)%Q
             = Returned (Some (m, zip3 mk_slice (mk3 0 0 0) (mk3 3 4 5)))).
  { eexists. vm_compute. reflexivity. }
  destruct E as (m & E). exists m. split; [exact E |].
  assert (Hne : [ann_left; ann_left; ann_right] <> []) by discriminate.
  assert (Hsh : forall ann, In ann [ann_left; ann_left; ann_right] ->
             well_formed (boolean_mask ann) /\ shape (boolean_mask ann) = extents (bbox ann)).
  { intros ann [<- | [<- | [<- | []]]]; split; try reflexivity;
      unfold well_formed; simpl; lia. }
  destruct (unanimous_and_single_votes [ann_left; ann_left; ann_right] (3 # 10)%Q m
              (mk3 0 0 0) (mk3 3 4 5) 2 3 4 Hne Hsh eq_refl E) as [_ H].
  destruct (H eq_refl eq_refl) as [_ H']. apply H'. reflexivity.
Defined.

(** ** data_loader.py: conversions composed, and the Hounsfield window *)

Section DataLoaderFacts.

Local Open Scope Q_scope.

Lemma rint_comp (x y : Q) : x == y -> rint x = rint y.
Proof.
  intros E. unfold rint. cbv zeta.
  rewrite (Qfloor_comp _ _ E).
  assert (Ec : Qcompare (x - inject_Z (Qfloor y)) (1 # 2)
             = Qcompare (y - inject_Z (Qfloor y)) (1 # 2)).
  { apply Qcompare_comp; [rewrite E; reflexivity | reflexivity]. }
  rewrite Ec. reflexivity.
Qed.

Lemma rint_inject_Z (v : Z) : rint (inject_Z v) = v.
Proof.
  unfold rint. cbv zeta. rewrite Qfloor_Z.
  assert (E : Qcompare (inject_Z v - inject_Z v) (1 # 2) = Lt).
  { apply (proj1 (Qlt_alt _ _)). lra. }
  rewrite E. reflexivity.
Qed.


End DataLoaderFacts.

(** X3.  Converting a voxel index to millimetres and back returns the index
    itself, on every axis whose spacing is not zero. *)
Theorem voxel_world_voxel_identity (a : axis) (v : vec3 Z) (o s : vec3 Q) :
  ~ (get a s == 0)%Q ->
  get a (world_to_voxel (voxel_to_world v o s) o s) = get a v.
Proof.
  intros Hs. rewrite get_world_to_voxel, get_voxel_to_world.
  rewrite <- (rint_inject_Z (get a v)) at 2.
  apply rint_comp. field. exact Hs.
Qed.

Lemma voxel_world_voxel_identity_witness :
  get Yax (world_to_voxel
             (voxel_to_world (mk3 3 (-7) 120)
                (mk3 (-3 # 2) (5 # 4) 0)%Q (mk3 (5 # 2) (3 # 4) 1)%Q)
             (mk3 (-3 # 2) (5 # 4) 0)%Q (mk3 (5 # 2) (3 # 4) 1)%Q) = -7.
Proof.
  apply (voxel_world_voxel_identity Yax (mk3 3 (-7) 120)
           (mk3 (-3 # 2) (5 # 4) 0)%Q (mk3 (5 # 2) (3 # 4) 1)%Q).
  intros H. discriminate H.
Defined.





(** ** lidc_loader.py: the scan cache *)

Section CacheFacts.

Variable db : list scan.

Lemma dict_get_set {V} (d : dict V) (k k' : string) (v : V) :
  dict_get (dict_set d k v) k' = if String.eqb k k' then Some v else dict_get d k'.
Proof.
  induction d as [| [k0 v0] d IH]; simpl.
  - reflexivity.
  - destruct (String.eqb_spec k0 k) as [-> | Hk0]; simpl.
    + destruct (String.eqb k k'); reflexivity.
    + rewrite IH.
      destruct (String.eqb_spec k0 k') as [-> | Hk0'].
      * destruct (String.eqb_spec k k') as [-> | _]; [congruence | reflexivity].
      * reflexivity.
Qed.

Lemma lookups_from (uids : list string) :
  forall cache, coherent db cache ->
  fst (lookups db cache uids) = map (get_scan_by_seriesuid db) uids /\
  forall uid,
    dict_get (snd (lookups db cache uids)) uid =
    match dict_get cache uid with
    | Some sc => Some sc
    | None => if mem uid uids then get_scan_by_seriesuid db uid else None
    end.
Proof.
  induction uids as [| u rest IH]; intros cache Hc.
  - split; [reflexivity |]. intros uid. simpl. destruct (dict_get cache uid); reflexivity.
  - cbn [lookups]. unfold get_scan_cached.
    destruct (dict_get cache u) as [sc |] eqn:Eu.
    + destruct (IH cache Hc) as [Ha Hd].
      destruct (lookups db cache rest) as [answers cache2]. cbn [fst snd] in *.
      split; [cbn [map]; rewrite (Hc u sc Eu), Ha; reflexivity |].
      intros uid. rewrite Hd. destruct (dict_get cache uid) eqn:Euid; [reflexivity |].
      cbn [mem existsb]. fold (mem uid rest).
      destruct (String.eqb_spec uid u) as [-> | _]; [congruence | reflexivity].
    + destruct (get_scan_by_seriesuid db u) as [sc |] eqn:Eq.
      * assert (Hc1 : coherent db (dict_set cache u sc)).
        { intros uid sc'. rewrite dict_get_set.
          destruct (String.eqb_spec u uid) as [<- | _]; [congruence | apply Hc]. }
        destruct (IH _ Hc1) as [Ha Hd].
        destruct (lookups db (dict_set cache u sc) rest) as [answers cache2].
        cbn [fst snd] in *.
        split; [cbn [map]; rewrite Eq, Ha; reflexivity |].
        intros uid. rewrite Hd, dict_get_set.
        cbn [mem existsb]. fold (mem uid rest). rewrite (String.eqb_sym uid u).
        destruct (String.eqb_spec u uid) as [<- | _].
        -- rewrite Eu. simpl. symmetry. exact Eq.
        -- destruct (dict_get cache uid); reflexivity.
      * destruct (IH cache Hc) as [Ha Hd].
        destruct (lookups db cache rest) as [answers cache2]. cbn [fst snd] in *.
        split; [cbn [map]; rewrite Eq, Ha; reflexivity |].
        intros uid. rewrite Hd. destruct (dict_get cache uid) eqn:Euid; [reflexivity |].
        cbn [mem existsb]. fold (mem uid rest).
        destruct (String.eqb_spec uid u) as [-> | _]; [| reflexivity].
        rewrite Eq. simpl. destruct (mem u rest); reflexivity.
Qed.

End CacheFacts.

(** X6.  On a loader whose cache starts empty, any run of
    [get_scan_by_seriesuid] calls answers each request exactly as the
    database query would, and leaves in the cache the scans of the
    requested series that exist and nothing else: a series that was not
    found is not cached. *)
Theorem cached_lookups_agree_with_query (db : list scan) (uids : list string) :
  fst (lookups db [] uids) = map (get_scan_by_seriesuid db) uids /\
  forall uid,
    dict_get (snd (lookups db [] uids)) uid =
    if mem uid uids then get_scan_by_seriesuid db uid else None.
Proof.
  destruct (lookups_from db uids []) as [Ha Hd].
  - intros uid sc E. discriminate E.
  - split; [exact Ha |]. intros uid. rewrite Hd. reflexivity.
Qed.

(** ** lidc_loader.py: malignancy consensus *)

Section MalignancyFacts.

Variable np_std : list Z -> Q.

Local Open Scope Q_scope.

(** Rounding stays between integer bounds. *)
Lemma rint_between (x : Q) (a b : Z) :
  inject_Z a <= x <= inject_Z b -> (a <= rint x <= b)%Z.
Proof.
  intros [Ha Hb].
  destruct (frac_bounds x) as [F0 F1].
  assert (Hfa : (a <= Qfloor x)%Z).
  { rewrite <- (Qfloor_Z a). apply Qfloor_resp_le. exact Ha. }
  assert (Hfb : (Qfloor x <= b)%Z).
  { rewrite <- (Qfloor_Z b). apply Qfloor_resp_le. exact Hb. }
  assert (Hup : 0 < x - inject_Z (Qfloor x) -> (Qfloor x + 1 <= b)%Z).
  { intros Hpos. assert (Hlt : inject_Z (Qfloor x) < inject_Z b) by lra.
    rewrite <- Zlt_Qlt in Hlt. lia. }
  destruct (rint_cases x) as [[H ->] | [[H ->] | [H ->]]].
  - lia.
  - split; [lia | apply Hup; lra].
  - destruct (Z.even (Qfloor x)); [lia |].
    split; [lia | apply Hup; lra].
Qed.

Lemma sum_between (l : list Z) (lo hi : Z) :
  (forall x, In x l -> lo <= x <= hi)%Z ->
  (lo * len l <= fold_right Z.add 0 l <= hi * len l)%Z.
Proof.
  induction l as [| a l IH]; intros H.
  - unfold len; simpl; lia.
  - assert (Ha : (lo <= a <= hi)%Z) by (apply H; now left).
    assert (Hl : (lo * len l <= fold_right Z.add 0 l <= hi * len l)%Z)
      by (apply IH; intros x Hx; apply H; now right).
    unfold len in *. cbn [fold_right List.length]. rewrite Nat2Z.inj_succ. nia.
Qed.

(** The mean of a non-empty list lies between any bounds of its entries. *)
Lemma np_mean_between (l : list Z) (lo hi : Z) :
  l <> [] ->
  (forall x, In x l -> lo <= x <= hi)%Z ->
  inject_Z lo <= np_mean l <= inject_Z hi.
Proof.
  intros Hne H.
  assert (Hn : (0 < len l)%Z).
  { destruct l; [congruence | unfold len; simpl List.length; lia]. }
  assert (Hq : 0 < inject_Z (len l)).
  { change 0 with (inject_Z 0). rewrite <- Zlt_Qlt. exact Hn. }
  destruct (sum_between l lo hi H) as [Hlo Hhi].
  unfold np_mean. split.
  - apply Qle_shift_div_l; [exact Hq |].
    rewrite <- inject_Z_mult, <- Zle_Qle. exact Hlo.
  - apply Qle_shift_div_r; [exact Hq |].
    rewrite <- inject_Z_mult, <- Zle_Qle. exact Hhi.
Qed.

Lemma malignancy_label_named (z : Z) :
  (1 <= z <= 5)%Z ->
  In (malignancy_label z)
     ["Altamente improbable"; "Moderadamente improbable"; "Indeterminado";
      "Moderadamente sospechoso"; "Altamente sospechoso"]%string.
Proof.
  intros H.
  assert (E : z = 1%Z \/ z = 2%Z \/ z = 3%Z \/ z = 4%Z \/ z = 5%Z) by lia.
  destruct E as [-> | [-> | [-> | [-> | ->]]]]; simpl; tauto.
Qed.

Lemma describe_bounds (scores : list Z) (lo hi : Z) :
  scores <> [] ->
  (forall x, In x scores -> lo <= x <= hi)%Z ->
  inject_Z lo <= malignancy_mean (describe np_std scores) <= inject_Z hi /\
  exists z, (lo <= z <= hi)%Z /\
            consensus_label (describe np_std scores) = malignancy_label z.
Proof.
  intros Hne H. unfold describe. cbn [malignancy_mean consensus_label].
  pose proof (np_mean_between scores lo hi Hne H) as Hm.
  split; [exact Hm |].
  exists (rint (np_mean scores)). split; [now apply rint_between | reflexivity].
Qed.

(** The loop of [get_consensus_malignancy] on clusters that are all
    non-empty: one entry per cluster, numbered from [idx], each equal to
    what [get_cluster_malignancy] returns for that cluster. *)
Lemma consensus_from_agrees (clusters : list (list lidc_annotation)) :
  Forall (fun c => c <> []) clusters ->
  forall idx,
  exists results,
    consensus_from np_std idx
      (map (map (fun ann => mk_cluster_entry (ann_id ann) (ann_features ann))) clusters)
      = Returned results /\
    List.length results = List.length clusters /\
    forall i c, nth_error clusters i = Some c ->
      nth_error results i =
      Some (mk_nodule_consensus (idx + Z.of_nat i) (get_cluster_malignancy np_std c)).
Proof.
  induction 1 as [| c clusters Hc _ IH]; intros idx.
  - exists []. split; [reflexivity |]. split; [reflexivity |].
    intros [| i] c' E; discriminate E.
  - destruct (IH (idx + 1)%Z) as (results & E & Hlen & Hnth).
    cbn [map consensus_from]. rewrite !map_map. cbn [cluster_features].
    rewrite is_empty_false by (intros E0; apply map_eq_nil in E0; contradiction).
    rewrite E. cbn [bind].
    eexists. split; [reflexivity |]. split; [cbn [List.length]; congruence |].
    intros [| i] c' Ei.
    + injection Ei as <-. cbn [nth_error]. rewrite Z.add_0_r.
      unfold get_cluster_malignancy. rewrite (is_empty_false c Hc). reflexivity.
    + cbn [nth_error] in *. rewrite (Hnth i c' Ei). do 2 f_equal. lia.
Qed.

Lemma consensus_from_raises (clusters : list (list lidc_annotation)) :
  In [] clusters ->
  forall idx,
  consensus_from np_std idx
    (map (map (fun ann => mk_cluster_entry (ann_id ann) (ann_features ann))) clusters)
    = Raised ValueError.
Proof.
  induction clusters as [| c clusters IH]; intros Hin idx; [destruct Hin |].
  cbn [map consensus_from].
  destruct c as [| a c].
  - reflexivity.
  - destruct Hin as [E | Hin]; [discriminate E |].
    cbn [map is_empty]. rewrite (IH Hin). reflexivity.
Qed.

End MalignancyFacts.

(** X7.  [get_cluster_malignancy] on scores in the documented range 1-5:
    it reports as many radiologists as the cluster has annotations; an
    empty cluster gets the label "Sin datos" and a mean of 0; a non-empty
    cluster gets a mean between 1 and 5 and one of the five named labels,
    never "Desconocido". *)
Theorem cluster_malignancy_is_named (np_std : list Z -> Q)
  (cluster : list lidc_annotation) :
  (forall ann, In ann cluster -> 1 <= malignancy (ann_features ann) <= 5) ->
  num_radiologists (get_cluster_malignancy np_std cluster) = len cluster /\
  (cluster = [] ->
     consensus_label (get_cluster_malignancy np_std cluster) = "Sin datos"%string /\
     malignancy_mean (get_cluster_malignancy np_std cluster) = 0%Q) /\
  (cluster <> [] ->
     (1 <= malignancy_mean (get_cluster_malignancy np_std cluster) <= 5)%Q /\
     In (consensus_label (get_cluster_malignancy np_std cluster))
        ["Altamente improbable"; "Moderadamente improbable"; "Indeterminado";
         "Moderadamente sospechoso"; "Altamente sospechoso"]%string).
Proof.
  intros Hrange. unfold get_cluster_malignancy.
  destruct cluster as [| a cluster].
  - cbn [is_empty]. split; [reflexivity |]. split; [auto | congruence].
  - cbn [is_empty]. split; [| split; [discriminate |]].
    + unfold describe. cbn [num_radiologists]. apply len_map.
    + intros _.
      destruct (describe_bounds np_std
                  (map (fun ann => malignancy (ann_features ann)) (a :: cluster)) 1 5)
        as (Hm & z & Hz & El).
      * discriminate.
      * intros x Hx. apply in_map_iff in Hx. destruct Hx as (ann & <- & Hann).
        now apply Hrange.
      * split; [exact Hm |]. rewrite El. now apply malignancy_label_named.
Qed.

Lemma cluster_malignancy_is_named_witness :
  consensus_label
    (get_cluster_malignancy std0 [scored ann_in 11 2; scored ann_out 12 3])
  = "Moderadamente improbable"%string /\
  In (consensus_label
        (get_cluster_malignancy std0 [scored ann_in 11 2; scored ann_out 12 3]))
     ["Altamente improbable"; "Moderadamente improbable"; "Indeterminado";
      "Moderadamente sospechoso"; "Altamente sospechoso"]%string.
Proof.
  split; [reflexivity |].
  destruct (cluster_malignancy_is_named std0 [scored ann_in 11 2; scored ann_out 12 3])
    as (_ & _ & H).
  - intros ann [<- | [<- | []]]; simpl; lia.
  - apply H. discriminate.
Defined.

(** X8.  [get_consensus_malignancy] and [get_cluster_malignancy] agree: for
    a scan whose clusters are all non-empty, the former returns one entry
    per cluster, numbered from 0 in cluster order, each holding exactly
    what the latter returns for that cluster.  On a scan with an empty
    cluster it raises [ValueError] instead of reporting "Sin datos", and
    for an unknown series it returns the empty list. *)
Theorem consensus_malignancy_agrees (np_std : list Z -> Q) (ldb : list lidc_scan)
  (uid : string) :
  (get_lidc_scan ldb uid = None ->
     get_consensus_malignancy np_std ldb uid = Returned []) /\
  (forall sc, get_lidc_scan ldb uid = Some sc ->
     (Forall (fun c => c <> []) (lidc_clusters sc) ->
        exists results,
          get_consensus_malignancy np_std ldb uid = Returned results /\
          len results = len (lidc_clusters sc) /\
          forall i c, nth_error (lidc_clusters sc) i = Some c ->
            nth_error results i =
            Some (mk_nodule_consensus (Z.of_nat i) (get_cluster_malignancy np_std c))) /\
     (In [] (lidc_clusters sc) ->
        get_consensus_malignancy np_std ldb uid = Raised ValueError)).
Proof.
  unfold get_consensus_malignancy, get_clustered_nodules. split.
  - intros ->. reflexivity.
  - intros sc ->. split.
    + intros Hne.
      destruct (consensus_from_agrees np_std (lidc_clusters sc) Hne 0)
        as (results & E & Hlen & Hnth).
      exists results. split; [exact E |]. split; [unfold len; congruence |].
      intros i c Ei. rewrite (Hnth i c Ei). reflexivity.
    + intros Hin. now apply consensus_from_raises.
Qed.

Lemma consensus_malignancy_agrees_witness :
  exists results,
    get_consensus_malignancy std0 ldb1 "1.3.6.1" = Returned results /\
    nth_error results 1 =
    Some (mk_nodule_consensus 1 (get_cluster_malignancy std0 [scored ann_three 13 5])).
Proof.
  destruct (consensus_malignancy_agrees std0 ldb1 "1.3.6.1") as [_ H].
  destruct (H lidc_a eq_refl) as [Hok _].
  destruct Hok as (results & E & _ & Hnth).
  - repeat constructor; discriminate.
  - exists results. split; [exact E |].
    apply (Hnth 1%nat [scored ann_three 13 5]). reflexivity.
Defined.

(** ** lidc_loader.py: reliable nodules, metadata, mappings *)

Section BookkeepingFacts.

Lemma malignancy_label_not_sin_datos (z : Z) :
  malignancy_label z <> "Sin datos"%string.
Proof.
  unfold malignancy_label.
  destruct z as [| p | p]; try discriminate.
  destruct p as [p | p |]; try discriminate;
    destruct p as [p | p |]; try discriminate;
    destruct p as [p | p |]; discriminate.
Qed.

Lemma ge_true_iff (a b : Z) : (a >=? b) = true <-> b <= a.
Proof. rewrite Z.geb_leb. apply Z.leb_le. Qed.

Lemma dict_keys_set {V} (d : dict V) (k : string) (v : V) :
  dict_keys (dict_set d k v) =
  if mem k (dict_keys d) then dict_keys d else dict_keys d ++ [k].
Proof.
  unfold dict_keys, mem.
  induction d as [| [k0 v0] d IH]; [reflexivity |].
  cbn [dict_set map fst existsb]. rewrite (String.eqb_sym k k0).
  destruct (String.eqb k0 k); cbn [map fst orb]; [reflexivity |].
  rewrite IH. destruct (existsb (String.eqb k) (map fst d)); reflexivity.
Qed.

Lemma mem_In (x : string) (l : list string) : mem x l = true <-> In x l.
Proof.
  unfold mem. rewrite existsb_exists. split.
  - intros (y & Hy & E). apply String.eqb_eq in E. now subst.
  - intros H. exists x. split; [exact H | apply String.eqb_refl].
Qed.

Lemma dict_keys_set_NoDup {V} (d : dict V) (k : string) (v : V) :
  NoDup (dict_keys d) -> NoDup (dict_keys (dict_set d k v)).
Proof.
  intros H. rewrite dict_keys_set.
  destruct (mem k (dict_keys d)) eqn:E; [exact H |].
  apply NoDup_app; [exact H | repeat constructor; intros [] |].
  intros x Hx [<- | []]. apply mem_In in Hx. congruence.
Qed.

Lemma filter_partition_len {A} (f : A -> bool) (l : list A) :
  len (filter f l) + len (filter (fun x => negb (f x)) l) = len l.
Proof.
  unfold len. induction l as [| a l IH]; [reflexivity |].
  cbn [filter]. destruct (f a); cbn [negb List.length]; lia.
Qed.

(** Two sets have as many common elements counted from either side. *)
Lemma set_inter_len_sym (a b : list string) :
  NoDup a -> NoDup b -> len (set_inter a b) = len (set_inter b a).
Proof.
  intros Ha Hb. unfold len. f_equal. apply Permutation_length.
  apply NoDup_Permutation.
  - now apply NoDup_filter.
  - now apply NoDup_filter.
  - intros x. unfold set_inter. rewrite !filter_In, !mem_In. tauto.
Qed.

End BookkeepingFacts.

(** X9.  A cluster that [get_reliable_nodules] returns for a minimum of at
    least one annotation is a cluster of the scan with at least that many
    annotations; it stays reliable for every smaller minimum;
    [get_cluster_malignancy] never labels it "Sin datos"; and when the
    aligned consensus of its annotations reaches the normalisation, it
    divides by at least the minimum. *)
Theorem reliable_cluster_has_quorum
  (polygon : list Z -> list Z -> Z * Z -> list (Z * Z)) (np_std : list Z -> Q)
  (ldb : list lidc_scan) (uid : string) (min_annotations : Z)
  (cluster : list lidc_annotation) (o s : vec3 Q) (ct : vec3 Z) :
  1 <= min_annotations ->
  In cluster (get_reliable_nodules ldb uid min_annotations) ->
  (exists sc, get_lidc_scan ldb uid = Some sc /\ In cluster (lidc_clusters sc)) /\
  min_annotations <= len cluster /\
  (forall n, n <= min_annotations -> In cluster (get_reliable_nodules ldb uid n)) /\
  num_radiologists (get_cluster_malignancy np_std cluster) = len cluster /\
  consensus_label (get_cluster_malignancy np_std cluster) <> "Sin datos"%string /\
  (forall k, normalization_divisor polygon (map geometry cluster) o s ct = Some k ->
     min_annotations <= k).
Proof.
  intros Hmin Hin. unfold get_reliable_nodules in *.
  destruct (get_lidc_scan ldb uid) as [sc |]; [| destruct Hin].
  apply filter_In in Hin. destruct Hin as [Hc Hlen]. apply ge_true_iff in Hlen.
  assert (Hne : cluster <> []).
  { intros ->. unfold len in Hlen. simpl in Hlen. lia. }
  split; [eauto |]. split; [exact Hlen |]. split; [| split; [| split]].
  - intros n Hn. apply filter_In. split; [exact Hc |]. apply ge_true_iff. lia.
  - unfold get_cluster_malignancy. rewrite (is_empty_false _ Hne).
    unfold describe. cbn [num_radiologists]. apply len_map.
  - unfold get_cluster_malignancy. rewrite (is_empty_false _ Hne).
    unfold describe. cbn [consensus_label]. apply malignancy_label_not_sin_datos.
  - intros k Hk. unfold normalization_divisor in Hk.
    destruct (aligned_votes polygon (map geometry cluster) o s ct) as [[r |] | e];
      try discriminate Hk.
    injection Hk as <-. rewrite len_map. exact Hlen.
Qed.

Lemma reliable_cluster_has_quorum_witness :
  get_reliable_nodules ldb1 "1.3.6.1" 2 = [[scored ann_in 11 2; scored ann_out 12 3]] /\
  2 <= len [scored ann_in 11 2; scored ann_out 12 3] /\
  In [scored ann_in 11 2; scored ann_out 12 3] (get_reliable_nodules ldb1 "1.3.6.1" 1).
Proof.
  split; [reflexivity |].
  destruct (reliable_cluster_has_quorum even_odd_polygon std0 ldb1 "1.3.6.1" 2
              [scored ann_in 11 2; scored ann_out 12 3] origin0 spacing1 ct10)
    as (_ & Hlen & Hmono & _).
  - lia.
  - left. reflexivity.
  - split; [exact Hlen |]. apply Hmono. lia.
Defined.

(** X10.  [map_luna16_to_lidc] returns a dictionary whose keys are exactly
    the requested series, each once, and whose value at a requested series
    is the patient id of its LIDC scan, or [None] when LIDC has no such
    scan. *)
Theorem luna16_mapping_lookup (ldb : list lidc_scan) (seriesuids : list string) :
  NoDup (dict_keys (map_luna16_to_lidc ldb seriesuids)) /\
  (forall uid, In uid (dict_keys (map_luna16_to_lidc ldb seriesuids)) <->
               In uid seriesuids) /\
  forall uid,
    dict_get (map_luna16_to_lidc ldb seriesuids) uid =
    if mem uid seriesuids
    then Some (option_map patient_id (get_lidc_scan ldb uid))
    else None.
Proof.
  unfold map_luna16_to_lidc.
  set (step := fun (mapping : dict (option string)) (uid : string) =>
                 match get_lidc_scan ldb uid with
                 | Some sc => dict_set mapping uid (Some (patient_id sc))
                 | None => dict_set mapping uid None
                 end).
  assert (Estep : forall m u,
            step m u = dict_set m u (option_map patient_id (get_lidc_scan ldb u))).
  { intros m u. unfold step. destruct (get_lidc_scan ldb u); reflexivity. }
  assert (G : forall uids d,
            NoDup (dict_keys d) ->
            NoDup (dict_keys (fold_left step uids d)) /\
            (forall uid, In uid (dict_keys (fold_left step uids d)) <->
                         In uid (dict_keys d) \/ In uid uids) /\
            forall uid,
              dict_get (fold_left step uids d) uid =
              if mem uid uids
              then Some (option_map patient_id (get_lidc_scan ldb uid))
              else dict_get d uid).
  { induction uids as [| u uids IH]; intros d Hd.
    - cbn [fold_left]. split; [exact Hd |]. split; [intros uid; simpl; tauto |].
      intros uid. reflexivity.
    - cbn [fold_left]. rewrite Estep.
      destruct (IH (dict_set d u (option_map patient_id (get_lidc_scan ldb u))))
        as (Hn & Hk & Hg).
      { now apply dict_keys_set_NoDup. }
      split; [exact Hn |]. split.
      + intros uid. rewrite Hk, dict_keys_set.
        destruct (mem u (dict_keys d)) eqn:Em.
        * apply mem_In in Em. simpl. split; [tauto |].
          intros [H | [<- | H]]; tauto.
        * rewrite in_app_iff. simpl. tauto.
      + intros uid. rewrite Hg, dict_get_set.
        cbn [mem existsb]. fold (mem uid uids). rewrite (String.eqb_sym uid u).
        destruct (mem uid uids); [rewrite orb_true_r; reflexivity |].
        rewrite orb_false_r.
        destruct (String.eqb_spec u uid) as [<- | _]; reflexivity. }
  destruct (G seriesuids [] (NoDup_nil _)) as (Hn & Hk & Hg).
  split; [exact Hn |]. split.
  - intros uid. rewrite Hk. simpl. tauto.
  - intros uid. rewrite Hg. destruct (mem uid seriesuids); reflexivity.
Qed.

(** X11.  The report of [verify_luna16_lidc_overlap] is consistent: the
    distinct LUNA16 series split into those shared with LIDC-IDRI and
    those only in LUNA16, the distinct LIDC-IDRI series split likewise,
    the listed shared series are exactly the series present on both sides,
    and the percentage lies between 0 and 100, being 0 (with no division)
    for an empty LUNA16 list. *)
Theorem overlap_report_consistent (ldb : list lidc_scan) (luna : list string) :
  overlap (verify_luna16_lidc_overlap ldb luna)
    + only_in_luna16 (verify_luna16_lidc_overlap ldb luna)
    = luna16_total (verify_luna16_lidc_overlap ldb luna) /\
  overlap (verify_luna16_lidc_overlap ldb luna)
    + only_in_lidc (verify_luna16_lidc_overlap ldb luna)
    = lidc_total (verify_luna16_lidc_overlap ldb luna) /\
  (forall uid, In uid (overlapping_uids (verify_luna16_lidc_overlap ldb luna)) <->
               In uid luna /\ In uid (get_all_lidc_seriesuids ldb)) /\
  (0 <= overlap_percentage (verify_luna16_lidc_overlap ldb luna) <= 100)%Q /\
  overlap_percentage (verify_luna16_lidc_overlap ldb [])%Q = 0%Q.
Proof.
  unfold verify_luna16_lidc_overlap.
  cbn [overlap only_in_luna16 only_in_lidc luna16_total lidc_total
       overlapping_uids overlap_percentage].
  set (A := py_set luna). set (B := py_set (get_all_lidc_seriesuids ldb)).
  assert (HA : NoDup A) by apply NoDup_nodup.
  assert (HB : NoDup B) by apply NoDup_nodup.
  split; [apply filter_partition_len |].
  split.
  { rewrite (set_inter_len_sym A B HA HB). apply filter_partition_len. }
  split.
  { intros uid. unfold set_inter. rewrite filter_In, mem_In.
    unfold A, B, py_set. rewrite !nodup_In. tauto. }
  split; [| reflexivity].
  destruct A as [| a A'] eqn:EA; cbn [is_empty]; [split; discriminate |].
  rewrite <- EA in *.
  assert (Hn : (0 < len A)%Z) by (rewrite EA; unfold len; simpl List.length; lia).
  pose proof (filter_partition_len (fun x => mem x B) A) as Hp.
  cbv beta in Hp. fold (set_inter A B) in Hp.
  assert (H0 : (0 <= len (set_inter A B))%Z) by (unfold len; lia).
  assert (H1 : (0 <= len (filter (fun x => negb (mem x B)) A))%Z) by (unfold len; lia).
  assert (Hle : (len (set_inter A B) <= len A)%Z) by lia.
  assert (Q0 : (0 <= inject_Z (len (set_inter A B)))%Q).
  { change 0%Q with (inject_Z 0). rewrite <- Zle_Qle. exact H0. }
  assert (Q1 : (inject_Z (len (set_inter A B)) <= inject_Z (len A))%Q).
  { rewrite <- Zle_Qle. exact Hle. }
  assert (Qn : (0 < inject_Z (len A))%Q).
  { change 0%Q with (inject_Z 0). rewrite <- Zlt_Qlt. exact Hn. }
  assert (D0 : (0 <= inject_Z (len (set_inter A B)) / inject_Z (len A))%Q).
  { apply Qle_shift_div_l; [exact Qn | lra]. }
  assert (D1 : (inject_Z (len (set_inter A B)) / inject_Z (len A) <= 1)%Q).
  { apply Qle_shift_div_r; [exact Qn | lra]. }
  split; lra.
Qed.

(** X12.  The bookkeeping functions agree on every series.  For an unknown
    series [get_scan_metadata] returns [None], the list-valued functions
    return empty lists and [map_luna16_to_lidc] maps the series to [None].
    For a known series the metadata counts are the lengths of what
    [get_annotations] and [get_clustered_nodules] return, every cluster is
    reliable for a minimum of 0, and [map_luna16_to_lidc] maps the series
    to the patient id of the metadata. *)
Theorem bookkeeping_agrees (np_std : list Z -> Q) (ldb : list lidc_scan)
  (uid : string) (min_annotations : Z) :
  match get_scan_metadata ldb uid with
  | None =>
      get_annotations ldb uid = [] /\
      get_clustered_nodules ldb uid = [] /\
      get_reliable_nodules ldb uid min_annotations = [] /\
      get_consensus_malignancy np_std ldb uid = Returned [] /\
      dict_get (map_luna16_to_lidc ldb [uid]) uid = Some None
  | Some md =>
      len (get_annotations ldb uid) = num_annotations md /\
      len (get_clustered_nodules ldb uid) = num_nodules md /\
      len (get_reliable_nodules ldb uid 0) = num_nodules md /\
      len (get_reliable_nodules ldb uid min_annotations) <= num_nodules md /\
      dict_get (map_luna16_to_lidc ldb [uid]) uid = Some (Some (meta_patient_id md))
  end.
Proof.
  unfold get_scan_metadata, get_annotations, get_clustered_nodules,
    get_reliable_nodules, get_consensus_malignancy, get_clustered_nodules,
    map_luna16_to_lidc.
  cbn [fold_left].
  destruct (get_lidc_scan ldb uid) as [sc |].
  - cbn [num_annotations num_nodules meta_patient_id dict_set dict_get].
    rewrite String.eqb_refl, !len_map.
    split; [reflexivity |]. split; [reflexivity |].
    split; [| split; [| reflexivity]].
    + f_equal. f_equal. apply forallb_filter_id.
      apply forallb_forall. intros c _. apply ge_true_iff. unfold len. lia.
    + pose proof (filter_partition_len
                    (fun cluster : list lidc_annotation => len cluster >=? min_annotations)
                    (lidc_clusters sc)) as Hp.
      cbv beta in Hp. unfold len in *. lia.
  - cbn [dict_set dict_get]. rewrite String.eqb_refl. repeat split; reflexivity.
Qed.

(** ** Indexing the annotations and the clusters *)

Section Indexing.

Lemma py_getitem_below {A} (l : list A) (i : Z) :
  i < - len l -> py_getitem l i = Raised IndexError.
Proof.
  intros H. unfold py_getitem. unfold len in *.
  destruct (Z.ltb_spec i 0); [| lia].
  destruct (Z.leb_spec 0 (i + Z.of_nat (List.length l))); [lia | reflexivity].
Qed.

Lemma py_getitem_from_end {A} (l : list A) (i : Z) :
  - len l <= i < 0 -> py_getitem l i = py_getitem l (i + len l).
Proof.
  intros H. unfold py_getitem.
  destruct (Z.ltb_spec i 0); [| lia].
  destruct (Z.ltb_spec (i + len l) 0); [lia | reflexivity].
Qed.

End Indexing.

(** X13.  The index of an annotation or of a nodule is only checked against
    the upper end.  For a known scan, an index in [-len, 0) counts from
    the end, as on any Python list, and gives the same result as the
    index plus [len]; an index below [-len] is not reported as [None]: the
    call raises [IndexError]. *)
Theorem negative_index_behaviour
  (polygon : list Z -> list Z -> Z * Z -> list (Z * Z)) (db : list scan)
  (uid : string) (sc : scan) (idx : Z) (o s : vec3 Q) (ct : vec3 Z) (t : Q) :
  get_scan_by_seriesuid db uid = Some sc ->
  (idx < - len (annotations sc) ->
     get_annotation_mask db uid idx = Raised IndexError /\
     get_aligned_mask polygon db uid idx o s ct = Raised IndexError) /\
  (idx < - len (cluster_annotations sc) ->
     get_consensus_mask db uid idx t = Raised IndexError /\
     get_aligned_consensus_mask polygon db uid idx o s ct t = Raised IndexError) /\
  (- len (annotations sc) <= idx < 0 ->
     get_annotation_mask db uid idx
       = get_annotation_mask db uid (idx + len (annotations sc)) /\
     get_aligned_mask polygon db uid idx o s ct
       = get_aligned_mask polygon db uid (idx + len (annotations sc)) o s ct) /\
  (- len (cluster_annotations sc) <= idx < 0 ->
     get_consensus_mask db uid idx t
       = get_consensus_mask db uid (idx + len (cluster_annotations sc)) t /\
     get_aligned_consensus_mask polygon db uid idx o s ct t
       = get_aligned_consensus_mask polygon db uid
           (idx + len (cluster_annotations sc)) o s ct t).
Proof.
  intros Hsc.
  assert (Hpos : forall A (l : list A), 0 <= len l) by (intros; unfold len; lia).
  unfold get_annotation_mask, get_aligned_mask, get_consensus_mask,
    get_aligned_consensus_mask. rewrite Hsc. cbv zeta.
  split; [intros H; split | split; [intros H; split | split; intros H; split]].
  - rewrite ge_false by (specialize (Hpos _ (annotations sc)); lia).
    rewrite py_getitem_below by exact H. reflexivity.
  - rewrite ge_false by (specialize (Hpos _ (annotations sc)); lia).
    rewrite py_getitem_below by exact H. reflexivity.
  - rewrite ge_false by (specialize (Hpos _ (cluster_annotations sc)); lia).
    rewrite py_getitem_below by exact H. reflexivity.
  - rewrite ge_false by (specialize (Hpos _ (cluster_annotations sc)); lia).
    rewrite py_getitem_below by exact H. reflexivity.
  - rewrite !ge_false by lia. rewrite (py_getitem_from_end _ idx H). reflexivity.
  - rewrite !ge_false by lia. rewrite (py_getitem_from_end _ idx H). reflexivity.
  - rewrite !ge_false by lia. rewrite (py_getitem_from_end _ idx H). reflexivity.
  - rewrite !ge_false by lia. rewrite (py_getitem_from_end _ idx H). reflexivity.
Qed.

Lemma negative_index_behaviour_witness :
  get_aligned_mask even_odd_polygon db1 "1.3.6.1" (-3) origin0 spacing1 ct10
    = Raised IndexError /\
  get_aligned_mask even_odd_polygon db1 "1.3.6.1" (-1) origin0 spacing1 ct10
    = get_aligned_mask even_odd_polygon db1 "1.3.6.1" 1 origin0 spacing1 ct10.
Proof.
  destruct (negative_index_behaviour even_odd_polygon db1 "1.3.6.1" scan_a (-3)
              origin0 spacing1 ct10 (1 # 2)%Q eq_refl) as (H1 & _).
  destruct (negative_index_behaviour even_odd_polygon db1 "1.3.6.1" scan_a (-1)
              origin0 spacing1 ct10 (1 # 2)%Q eq_refl) as (_ & _ & H2 & _).
  split.
  - apply H1. reflexivity.
  - apply H2. split; [discriminate | reflexivity].
Defined.

(** ** The aligned bounding box and the volume *)

Section BoxInVolume.

Variable polygon : list Z -> list Z -> Z * Z -> list (Z * Z).

Lemma plane_bounds_inv (ys xs : list Z) (ct : vec3 Z) (y0 y1 x0 x1 : Z) :
  plane_bounds ys xs ct = Returned (y0, y1, (x0, x1)) ->
  0 <= y0 /\ y1 <= ax1 ct /\ 0 <= x0 /\ x1 <= ax2 ct.
Proof.
  unfold plane_bounds. intros H.
  step_bind H a Ea. step_bind H b Eb. step_bind H c Ec. step_bind H d Ed.
  injection H as <- <- <- <-. lia.
Qed.

Lemma all_contour_data_in_range (cluster : list annotation) (o s : vec3 Q)
  (ct : vec3 Z) (z : Z) :
  In z (map fst (all_contour_data cluster o s ct)) -> 0 <= z < ax0 ct.
Proof.
  intros H. apply in_map_iff in H. destruct H as (d & <- & Hd).
  unfold all_contour_data in Hd.
  apply in_flat_map in Hd. destruct Hd as (ann & _ & Hd).
  apply in_flat_map in Hd. destruct Hd as (c & _ & Hd).
  cbv zeta in Hd.
  destruct (Z.leb_spec 0 (z_index (image_z_position c) o s)); [| destruct Hd].
  destruct (Z.ltb_spec (z_index (image_z_position c) o s) (ax0 ct)); [| destruct Hd].
  destruct Hd as [<- | []]. simpl. lia.
Qed.

Lemma valid_contours_in_range (cs : list contour) (o s : vec3 Q) (ct : vec3 Z) (z : Z) :
  In z (map snd (valid_contours cs o s ct)) -> 0 <= z < ax0 ct.
Proof.
  intros H. apply in_map_iff in H. destruct H as ([c z'] & <- & Hd).
  apply valid_contours_spec in Hd. simpl. tauto.
Qed.

(** A box built from in-range slices and clipped in-plane bounds, whose
    mask could be allocated, lies inside the volume. *)
Lemma box_inside (zs ys xs : list Z) (ct : vec3 Z)
  (z_min z_max y_min y_max x_min x_max : Z) {A} (zero : A) (m0 : ndarray A) :
  (forall z, In z zs -> 0 <= z < ax0 ct) ->
  py_min zs = Returned z_min -> py_max zs = Returned z_max ->
  plane_bounds ys xs ct = Returned (y_min, y_max, (x_min, x_max)) ->
  np_zeros zero (mk3 (z_max - z_min + 1) (y_max - y_min) (x_max - x_min)) = Returned m0 ->
  (0 <= z_min /\ z_min < z_max + 1 /\ z_max + 1 <= ax0 ct) /\
  (0 <= y_min /\ y_min <= y_max /\ y_max <= ax1 ct) /\
  (0 <= x_min /\ x_min <= x_max /\ x_max <= ax2 ct).
Proof.
  intros Hz Emin Emax Ep E0.
  apply py_min_Returned in Emin. destruct Emin as [Imin Hmin].
  apply py_max_Returned in Emax. destruct Emax as [Imax Hmax].
  apply plane_bounds_inv in Ep. apply np_zeros_inv in E0.
  destruct E0 as [_ (D0 & D1 & D2)]. simpl in D0, D1, D2.
  pose proof (Hz _ Imin). pose proof (Hz _ Imax). pose proof (Hmin _ Imax). lia.
Qed.

End BoxInVolume.

(** X14.  The bounding box returned with an aligned mask ([get_aligned_mask],
    [get_aligned_consensus_mask], [get_aligned_mask_for_cluster]) lies
    inside the CT volume: on axis 0 it is a non-empty range of slices of
    the volume, and on axes 1 and 2 its bounds are ordered and within
    [0, ct_shape[1]] and [0, ct_shape[2]]. *)
Theorem aligned_bbox_inside_volume
  (polygon : list Z -> list Z -> Z * Z -> list (Z * Z)) (db : list scan)
  (uid : string) (idx : Z) (cluster : list annotation)
  (o s : vec3 Q) (ct : vec3 Z) (t : Q)
  (r : outcome mask_result) (m : ndarray bool) (b : vec3 slice) :
  In r [ get_aligned_mask polygon db uid idx o s ct;
         get_aligned_consensus_mask polygon db uid idx o s ct t;
         Returned (get_aligned_mask_for_cluster polygon cluster o s ct t) ] ->
  r = Returned (Some (m, b)) ->
  (0 <= start (ax0 b) /\ start (ax0 b) < stop (ax0 b) /\ stop (ax0 b) <= ax0 ct) /\
  (0 <= start (ax1 b) /\ start (ax1 b) <= stop (ax1 b) /\ stop (ax1 b) <= ax1 ct) /\
  (0 <= start (ax2 b) /\ start (ax2 b) <= stop (ax2 b) /\ stop (ax2 b) <= ax2 ct).
Proof.
  intros Hin Hr.
  assert (Hcons : forall cl,
            aligned_consensus_body polygon cl o s ct t = Returned (Some (m, b)) ->
            (0 <= start (ax0 b) /\ start (ax0 b) < stop (ax0 b) /\ stop (ax0 b) <= ax0 ct) /\
            (0 <= start (ax1 b) /\ start (ax1 b) <= stop (ax1 b) /\ stop (ax1 b) <= ax1 ct) /\
            (0 <= start (ax2 b) /\ start (ax2 b) <= stop (ax2 b) /\ stop (ax2 b) <= ax2 ct)).
  { intros cl Hb. apply aligned_consensus_body_inv in Hb. destruct Hb as (v & Hv & _).
    apply aligned_votes_inv in Hv.
    destruct Hv as (z_min & z_max & y_min & y_max & x_min & x_max & v0 &
                    _ & Emin & Emax & Ep & E0 & _ & ->).
    cbn [start stop ax0 ax1 ax2].
    exact (box_inside _ _ _ ct _ _ _ _ _ _ 0%Q v0
             (all_contour_data_in_range cl o s ct) Emin Emax Ep E0). }
  destruct Hin as [<- | [<- | [<- | []]]].
  - apply get_aligned_mask_inv in Hr. destruct Hr as (sc & ann & _ & _ & Hb).
    apply aligned_mask_body_inv in Hb.
    destruct Hb as (z_min & z_max & y_min & y_max & x_min & x_max & m0 &
                    _ & _ & Emin & Emax & Ep & E0 & _ & ->).
    cbn [start stop ax0 ax1 ax2].
    exact (box_inside _ _ _ ct _ _ _ _ _ _ false m0
             (valid_contours_in_range (contours ann) o s ct) Emin Emax Ep E0).
  - apply get_aligned_consensus_mask_inv in Hr. destruct Hr as (sc & cl & _ & _ & Hb).
    exact (Hcons cl Hb).
  - injection Hr as Hr. apply get_aligned_mask_for_cluster_inv in Hr.
    exact (Hcons cluster Hr).
Qed.

Lemma aligned_bbox_inside_volume_witness :
  exists m b,
    get_aligned_mask even_odd_polygon [scan_c] "1.3.6.3" 0 origin0 spacing1 ct10
      = Returned (Some (m, b)) /\
    0 <= start (ax0 b) /\ stop (ax0 b) <= ax0 ct10.
Proof.
  assert (E : exists m b,
             get_aligned_mask even_odd_polygon [scan_c] "1.3.6.3" 0 origin0 spacing1 ct10
             = Returned (Some (m, b))).
  { eexists. eexists. vm_compute. reflexivity. }
  destruct E as (m & b & E). exists m, b. split; [exact E |].
  destruct (aligned_bbox_inside_volume even_odd_polygon [scan_c] "1.3.6.3" 0 []
              origin0 spacing1 ct10 (1 # 2)%Q _ m b (or_introl eq_refl) E)
    as ((H0 & _ & H1) & _).
  split; assumption.
Defined.

(** ** The consensus mask between intersection and union, and in the threshold *)

Section ConsensusOrder.

Variable polygon : list Z -> list Z -> Z * Z -> list (Z * Z).

Local Open Scope Q_scope.






(** The votes behind a returned native consensus: the same votes answer at
    every other threshold. *)
Lemma consensus_body_rethreshold (cluster : list annotation) (t : Q)
  (m : ndarray bool) (b : vec3 slice) :
  consensus_body cluster t = Returned (Some (m, b)) ->
  exists v,
    m = np_ge (np_divide v (len cluster)) t /\
    forall t', consensus_body cluster t'
               = Returned (Some (np_ge (np_divide v (len cluster)) t', b)).
Proof.
  unfold consensus_body. intros H.
  destruct (is_empty (map (fun ann => (boolean_mask ann, bbox ann)) cluster));
    [discriminate H |].
  step_bind H mins Emin. step_bind H maxs Emax. step_bind H v Ev.
  injection H as <- <-. exists v. rewrite len_map. split; [reflexivity |].
  intros t'. cbn [bind]. rewrite Ev. reflexivity.
Qed.

Lemma aligned_consensus_body_rethreshold (cluster : list annotation) (o s : vec3 Q)
  (ct : vec3 Z) (t : Q) (m : ndarray bool) (b : vec3 slice) :
  aligned_consensus_body polygon cluster o s ct t = Returned (Some (m, b)) ->
  exists v,
    m = np_ge (np_divide v (len cluster)) t /\
    forall t', aligned_consensus_body polygon cluster o s ct t'
               = Returned (Some (np_ge (np_divide v (len cluster)) t', b)).
Proof.
  intros H. apply aligned_consensus_body_inv in H. destruct H as (v & Hv & ->).
  exists v. split; [reflexivity |].
  intros t'. unfold aligned_consensus_body. rewrite Hv. reflexivity.
Qed.

Lemma np_ge_antitone (v : ndarray Q) (t t' : Q) (i j k : Z) :
  t <= t' -> cell (np_ge v t') i j k = true -> cell (np_ge v t) i j k = true.
Proof.
  intros Ht H. cbn [np_ge cell] in *. apply Qle_bool_iff in H. apply Qle_bool_iff.
  now apply Qle_trans with t'.
Qed.

End ConsensusOrder.



(** X16.  Raising the threshold can only shrink a consensus mask.  For
    [get_consensus_mask], [get_aligned_consensus_mask] and
    [get_aligned_mask_for_cluster], if the call returns a mask at a
    threshold it returns one with the same bounding box at any larger
    threshold, and every voxel of the latter is a voxel of the former. *)
Theorem consensus_shrinks_with_threshold
  (polygon : list Z -> list Z -> Z * Z -> list (Z * Z)) (db : list scan)
  (uid : string) (idx : Z) (cluster : list annotation)
  (o s : vec3 Q) (ct : vec3 Z) (t t' : Q) (r r' : outcome mask_result)
  (m : ndarray bool) (b : vec3 slice) :
  (t <= t')%Q ->
  In (r, r')
     [ (get_consensus_mask db uid idx t, get_consensus_mask db uid idx t');
       (get_aligned_consensus_mask polygon db uid idx o s ct t,
        get_aligned_consensus_mask polygon db uid idx o s ct t');
       (Returned (get_aligned_mask_for_cluster polygon cluster o s ct t),
        Returned (get_aligned_mask_for_cluster polygon cluster o s ct t')) ] ->
  r = Returned (Some (m, b)) ->
  exists m',
    r' = Returned (Some (m', b)) /\ shape m' = shape m /\
    forall i j k, cell m' i j k = true -> cell m i j k = true.
Proof.
  intros Ht Hin Hr.
  destruct Hin as [E | [E | [E | []]]]; injection E as <- <-.
  - apply get_consensus_mask_inv in Hr. destruct Hr as (sc & cl & Hsc & Hget & Hb).
    destruct (consensus_body_rethreshold cl t m b Hb) as (v & -> & Hre).
    exists (np_ge (np_divide v (len cl)) t'). split; [| split; [reflexivity |]].
    + unfold get_consensus_mask. rewrite Hsc.
      unfold get_consensus_mask in Hb. cbv zeta.
      destruct (idx >=? len (cluster_annotations sc)) eqn:Ei.
      * exfalso. clear - Hget Ei. apply ge_true_iff in Ei.
        unfold py_getitem in Hget.
        destruct (Z.ltb_spec idx 0) as [Hneg | _].
        -- unfold len in *. lia.
        -- destruct (Z.ltb_spec idx (len (cluster_annotations sc))); [lia |].
           rewrite andb_false_r in Hget. discriminate Hget.
      * rewrite Hget. cbn [bind]. rewrite Hre. reflexivity.
    + intros i j k. now apply np_ge_antitone.
  - apply get_aligned_consensus_mask_inv in Hr.
    destruct Hr as (sc & cl & Hsc & Hget & Hb).
    destruct (aligned_consensus_body_rethreshold polygon cl o s ct t m b Hb)
      as (v & -> & Hre).
    exists (np_ge (np_divide v (len cl)) t'). split; [| split; [reflexivity |]].
    + unfold get_aligned_consensus_mask. rewrite Hsc. cbv zeta.
      destruct (idx >=? len (cluster_annotations sc)) eqn:Ei.
      * exfalso. clear - Hget Ei. apply ge_true_iff in Ei.
        unfold py_getitem in Hget.
        destruct (Z.ltb_spec idx 0) as [Hneg | _].
        -- unfold len in *. lia.
        -- destruct (Z.ltb_spec idx (len (cluster_annotations sc))); [lia |].
           rewrite andb_false_r in Hget. discriminate Hget.
      * rewrite Hget. cbn [bind]. rewrite Hre. reflexivity.
    + intros i j k. now apply np_ge_antitone.
  - injection Hr as Hr.
    pose proof Hr as Hb. apply get_aligned_mask_for_cluster_inv in Hb.
    destruct (aligned_consensus_body_rethreshold polygon cluster o s ct t m b Hb)
      as (v & -> & Hre).
    exists (np_ge (np_divide v (len cluster)) t'). split; [| split; [reflexivity |]].
    + unfold get_aligned_mask_for_cluster in *.
      destruct (is_empty cluster); [discriminate Hr |].
      rewrite Hre. reflexivity.
    + intros i j k. now apply np_ge_antitone.
Qed.

Lemma consensus_shrinks_with_threshold_witness :
  exists m m',
    get_consensus_mask db1 "1.3.6.2" 0 (1 # 4)%Q = Returned (Some (m, box 0 3 0 4 0 5)) /\
    get_consensus_mask db1 "1.3.6.2" 0 (3 # 4)%Q = Returned (Some (m', box 0 3 0 4 0 5)) /\
    (cell m' 1 1 2 = true -> cell m 1 1 2 = true).
Proof.
  assert (E : exists m, get_consensus_mask db1 "1.3.6.2" 0 (1 # 4)%Q
                        = Returned (Some (m, box 0 3 0 4 0 5))).
  { eexists. vm_compute. reflexivity. }
  destruct E as (m & E).
  assert (Ht : (1 # 4 <= 3 # 4)%Q) by discriminate.
  destruct (consensus_shrinks_with_threshold even_odd_polygon db1 "1.3.6.2" 0 []
              origin0 spacing1 ct10 (1 # 4)%Q (3 # 4)%Q
              (get_consensus_mask db1 "1.3.6.2" 0 (1 # 4)%Q)
              (get_consensus_mask db1 "1.3.6.2" 0 (3 # 4)%Q)
              m (box 0 3 0 4 0 5) Ht (or_introl eq_refl) E)
    as (m' & E' & _ & Hsub).
  exists m, m'. split; [exact E |]. split; [exact E' |]. apply Hsub.
Defined.

(** ** A cluster of one annotation *)

Section SingleAnnotation.

Variable polygon : list Z -> list Z -> Z * Z -> list (Z * Z).








End SingleAnnotation.




